(** * addons/web/models/ir_http.py: the web client's extension of ir.http

    A shallow embedding of the [Http] mixin of [addons/web/models/ir_http.py]:
    debug-mode parsing ([_handle_debug]), the session bootstrap payload
    ([session_info], [get_currencies]) and the binary/image responses
    ([_get_content_common], [_content_image_get_response], [_placeholder]).

    Conventions of the embedding:
    - a Python [str] is a [string] holding its UTF-8 bytes, so that
      [str.encode()] is the list of its bytes; splitting and joining on the
      ASCII comma agree with the code-point view because UTF-8 is
      self-synchronising;
    - a Python [bytes] is a [list byte];
    - a Python [dict] is a [gmap]; a record is used for the dictionaries whose
      keys are fixed in the source;
    - an exception is the [Raise] case of [result];
    - [request.session] is threaded explicitly through the two methods that
      assign to it;
    - the ORM, the asset pipeline, the image codec, [json], [hashlib] and the
      base class of the mixin are not part of the file: they are the fields
      of the classes [Tools] and [Env], over which every definition and
      theorem is parametric. *)

From Stdlib Require Import ZArith String Ascii List Bool.
From Stdlib Require Import Strings.Byte.
From stdpp Require Import base option list gmap strings pretty.

Set Warnings "-register-all,-clear-no-such-hyp".

Local Open Scope Z_scope.
Local Open Scope string_scope.

(** ** Python values and builtins *)

Module Py.

(** The scalar and list values that cross the interfaces of this file. *)
Inductive pyval : Type :=
| PNone
| PBool (b : bool)
| PInt (z : Z)
| PStr (s : string)
| PList (l : list pyval).

(** Exceptions, as far as the file distinguishes them: everything below is
    an instance of Python's [Exception]. *)
Inductive exn : Type :=
| ValueError
| TypeError
| KeyError (key : string)
| OSError
| Exception (what : string).

Inductive result (A : Type) : Type :=
| Ok (a : A)
| Raise (e : exn).
Arguments Ok {A} a.
Arguments Raise {A} e.

(** Sequencing: the first exception raised ends the computation. *)
Global Instance result_ret : MRet result := fun A a => Ok a.
Global Instance result_bind : MBind result := fun A B k m =>
  match m with
  | Ok a => k a
  | Raise e => Raise e
  end.

Definition is_ok {A} (m : result A) : bool :=
  match m with Ok _ => true | Raise _ => false end.

(** [bool(v)]. *)
Definition truthy (v : pyval) : bool :=
  match v with
  | PNone => false
  | PBool b => b
  | PInt z => negb (Z.eqb z 0)
  | PStr s => negb (String.eqb s "")
  | PList l => match l with [] => false | _ => true end
  end.

(** [a or b]. *)
Definition py_or (a b : pyval) : pyval := if truthy a then a else b.

(** [s.split(sep)] for a one-character separator: the pieces between the
    occurrences of [sep]; never the empty list. *)
Fixpoint split (sep : ascii) (s : string) : list string :=
  match s with
  | EmptyString => [EmptyString]
  | String c rest =>
      if Ascii.eqb c sep then EmptyString :: split sep rest
      else match split sep rest with
           | [] => [String c EmptyString]
           | w :: ws => String c w :: ws
           end
  end.

(** [sep.join(l)]. *)
Fixpoint join (sep : string) (l : list string) : string :=
  match l with
  | [] => EmptyString
  | [x] => x
  | x :: rest => x ++ sep ++ join sep rest
  end.

(** [c in s] for a character. *)
Fixpoint has_char (c : ascii) (s : string) : bool :=
  match s with
  | EmptyString => false
  | String c' rest => Ascii.eqb c' c || has_char c rest
  end.

(** [x in l] for a list of strings. *)
Definition str_in (x : string) (l : list string) : bool :=
  existsb (String.eqb x) l.

(** [s[:n]]. *)
Definition prefix (n : nat) (s : string) : string := String.substring 0 n s.

(** [s.encode()]: the UTF-8 bytes, which are the bytes the string holds. *)
Definition encode (s : string) : list byte := String.list_byte_of_string s.

(** [len(b)] of a [bytes]. *)
Definition len (b : list byte) : Z := Z.of_nat (length b).

(** [d[k]] on a dictionary with string keys. *)
Definition getitem {V} (d : gmap string V) (k : string) : result V :=
  match d !! k with
  | Some v => Ok v
  | None => Raise (KeyError k)
  end.

(** [d.get(k)]. *)
Definition dict_get (d : gmap string pyval) (k : string) : pyval :=
  default PNone (d !! k).

(** The keys of the menu dictionary: record ids and the string ['root']. *)
Inductive pykey : Type :=
| KInt (z : Z)
| KStr (s : string).

(** [str(k)]. *)
Definition str (k : pykey) : string :=
  match k with
  | KInt z => pretty z
  | KStr s => s
  end.

(** Equality of values is decidable: [==] and [!=]. *)
Fixpoint pyval_eq_dec (x y : pyval) {struct x} : {x = y} + {x <> y}.
Proof.
  decide equality.
  - apply bool_dec.
  - apply Z.eq_dec.
  - apply string_dec.
  - apply (List.list_eq_dec pyval_eq_dec).
Defined.

Global Instance pyval_eq_decision : EqDecision pyval := pyval_eq_dec.

End Py.
Export Py.

(** ** The request and its session *)

Module Session.

(** [request.session], with the attributes this file reads or assigns. *)
Record t : Type := mk {
  uid : option Z;
  debug : string;
  context : gmap string pyval;
  profile_session : pyval;
  profile_collectors : pyval;
  profile_params : pyval;
}.

(** [session.debug = d]. *)
Definition set_debug (d : string) (s : t) : t :=
  mk (uid s) d (context s) (profile_session s)
     (profile_collectors s) (profile_params s).

(** [session.context = c]. *)
Definition set_context (c : gmap string pyval) (s : t) : t :=
  mk (uid s) (debug s) c (profile_session s)
     (profile_collectors s) (profile_params s).

(** [bool(session.uid)]: a user is logged in. *)
Definition logged_in (s : t) : bool :=
  match uid s with
  | Some z => negb (Z.eqb z 0)
  | None => false
  end.

End Session.

(** [request.httprequest.args]: a multi-dict, kept as the list of the
    (key, value) pairs of the query string in order; [args.get(k)] is the
    first value of [k], or [None]. *)
Definition MultiDict : Type := list (string * string).

Fixpoint args_get (k : string) (args : MultiDict) : option string :=
  match args with
  | [] => None
  | (k', v) :: rest => if String.eqb k' k then Some v else args_get k rest
  end.

(** ** Responses *)

Definition header : Type := string * pyval.

Module Response.

(** An HTTP response: status, header list, body. *)
Record t : Type := mk {
  status_code : Z;
  headers : list header;
  data : list byte;
}.

(** [response.status_code = status]. *)
Definition set_status_code (status : Z) (r : t) : t :=
  mk status (headers r) (data r).

End Response.

(** Modelled from the spec: [request.make_response(data, headers)] of
    [odoo.http], which is not in this file. It builds the response object
    that carries the given bytes under the given headers; a fresh response
    has status 200. *)
Definition make_response (data : list byte) (headers : list header)
  : Response.t :=
  Response.mk 200 headers data.

(** Modelled from the spec: [request.not_found()] of [odoo.http], which is
    not in this file: the generic "not found" response, HTTP status 404. *)
Definition not_found : Response.t := Response.mk 404 [] [].

(** ** Records read from the ORM *)

Module Company.
(** A [res.company] record, with the fields [session_info] reads. *)
Record t : Type := mk { id : Z; name : pyval; sequence : pyval }.
End Company.

Module User.
(** [self.env.user]. A many2one field is [None] when the record set is empty
    and [Some id] otherwise. *)
Record t : Type := mk {
  name : pyval;
  login : pyval;
  partner_id : option Z;
  partner_display_name : pyval;
  company_id : option Z;
  company_ids : list Company.t;
  action_id : option Z;
  _is_system : bool;
  _is_admin : bool;
  has_group : string -> bool;
}.
End User.

(** [rec.id] of a many2one: the id, or [False] for the empty record set. *)
Definition record_id (r : option Z) : pyval :=
  match r with
  | Some i => PInt i
  | None => PBool false
  end.

Module Currency.
(** One dictionary of [Currency.search([]).read(['symbol', 'position',
    'decimal_places'])]. *)
Record t : Type := mk {
  id : Z;
  symbol : pyval;
  position : pyval;
  decimal_places : pyval;
}.
End Currency.

(** The keyword arguments of [binary_content]. *)
Module BinaryContent.
Record args : Type := mk {
  xmlid : pyval;
  model : string;
  id : pyval;
  field : string;
  unique : pyval;
  filename : pyval;
  filename_field : pyval;
  download : pyval;
  mimetype : pyval;
  default_mimetype : option string;
  access_token : pyval;
}.
End BinaryContent.

(** ** The payload of [session_info] *)

Module UserCompanies.
Record t : Type := mk {
  current_company : pyval;
  allowed_companies : gmap Z (gmap string pyval);
}.
End UserCompanies.

Module SessionInfo.
(** The dictionary [session_info] returns. The three last keys are only
    there for internal users, hence the options. *)
Record t : Type := mk {
  uid : option Z;
  is_system : bool;
  is_admin : bool;
  user_context : gmap string pyval;
  db : pyval;
  server_version : pyval;
  server_version_info : pyval;
  support_url : string;
  name : pyval;
  username : pyval;
  partner_display_name : pyval;
  company_id : pyval;
  partner_id : pyval;
  web_base_url : pyval;
  active_ids_limit : Z;
  profile_session : pyval;
  profile_collectors : pyval;
  profile_params : pyval;
  max_file_upload_size : Z;
  home_action_id : pyval;
  cache_hashes : gmap string pyval;
  currencies : gmap Z (gmap string pyval);
  user_companies : option UserCompanies.t;
  show_effect : option bool;
  display_switch_company_menu : option bool;
}.

(** [session_info['cache_hashes'].update(h)]. *)
Definition update_cache_hashes (h : gmap string pyval) (i : t) : t :=
  mk (uid i) (is_system i) (is_admin i) (user_context i) (db i)
     (server_version i) (server_version_info i) (support_url i) (name i)
     (username i) (partner_display_name i) (company_id i) (partner_id i)
     (web_base_url i) (active_ids_limit i) (profile_session i)
     (profile_collectors i) (profile_params i) (max_file_upload_size i)
     (home_action_id i) (h ∪ cache_hashes i) (currencies i)
     (user_companies i) (show_effect i) (display_switch_company_menu i).

(** [session_info.update({'user_companies': c, 'show_effect': e,
    'display_switch_company_menu': d})]. *)
Definition update_companies (c : UserCompanies.t) (e d : bool) (i : t) : t :=
  mk (uid i) (is_system i) (is_admin i) (user_context i) (db i)
     (server_version i) (server_version_info i) (support_url i) (name i)
     (username i) (partner_display_name i) (company_id i) (partner_id i)
     (web_base_url i) (active_ids_limit i) (profile_session i)
     (profile_collectors i) (profile_params i) (max_file_upload_size i)
     (home_action_id i) (cache_hashes i) (currencies i)
     (Some c) (Some e) (Some d).
End SessionInfo.

(** ** What the mixin calls and does not define *)

(** [odoo.tools], [odoo.http], [json], [hashlib] and the builtin [int]. *)
Class Tools : Type := {
  (** [str2bool(s, default)], called with a [str] default. *)
  str2bool : string -> string -> bool;
  (** [int(s)] on a [str]; [None] stands for [ValueError]. *)
  int_of_str : string -> option Z;
  (** [image_process(source, size=, crop=, quality=)]. *)
  image_process : list byte -> Z * Z -> pyval -> Z -> result (list byte);
  image_guess_size_from_field_name : string -> Z * Z;
  (** [file_open(name, 'rb', filter_ext=...)] followed by [read()]. *)
  file_open : string -> list string -> result (list byte);
  (** [http.set_safe_image_headers(headers, content)]. *)
  set_safe_image_headers : list header -> list byte -> list header;
  (** [hashlib.sha512(b).hexdigest()]. *)
  sha512_hexdigest : list byte -> string;
}.

(** [self.env], [request] (but for its session and query string),
    [odoo.conf], [odoo.service] and the methods inherited from the base
    [ir.http]. *)
Class Env : Type := {
  (** The values of the dictionary [load_menus] returns. *)
  menu : Type;
  env_user : User.t;
  (** [odoo.service.common.exp_version()]. *)
  exp_version : gmap string pyval;
  (** [self.env['res.users'].context_get()]. *)
  context_get : gmap string pyval;
  (** [IrConfigSudo.get_param(key, default=)]. *)
  get_param : string -> pyval -> pyval;
  (** [odoo.conf.server_wide_modules or []]. *)
  server_wide_modules : list string;
  (** [request.db]. *)
  request_db : pyval;
  (** [self.env.cr.dbname]. *)
  cr_dbname : pyval;
  (** [list(request.registry._init_modules)]. *)
  init_modules : list string;
  (** [self.env['ir.translation'].sudo().get_web_translations_hash]. *)
  get_web_translations_hash : list string -> pyval -> pyval;
  (** [HomeStaticTemplateHelpers.get_qweb_templates_checksum(debug=,
      bundle=, env=self.env)]. *)
  get_qweb_templates_checksum : string -> string -> pyval;
  (** [self.env['ir.ui.menu'].load_menus(debug)], as its items in order. *)
  load_menus : string -> list (pykey * menu);
  (** [json.dumps(d, default=ustr, sort_keys=True)]. *)
  json_dumps : gmap string menu -> string;
  (** [Currency.search([]).read(['symbol', 'position', 'decimal_places'])]. *)
  currency_read : list Currency.t;
  binary_content : BinaryContent.args -> Z * list header * list byte;
  _response_by_status : Z -> list header -> list byte -> Response.t;
  (** [model in self.env]. *)
  model_in_env : string -> bool;
  (** [self.env[model]._get_placeholder_filename(field)]: a file name, or
      [None] for [False]. *)
  _get_placeholder_filename : string -> string -> option string;
}.

(** ** Debug modes *)

Definition ALLOWED_DEBUG_MODES : list string := [""; "1"; "assets"; "tests"].

Section Http.

Context `{Tools} `{Env}.

(** [int(v)]. *)
Definition int (v : pyval) : result Z :=
  match v with
  | PInt z => Ok z
  | PBool b => Ok (if b then 1 else 0)
  | PStr s =>
      match int_of_str s with
      | Some z => Ok z
      | None => Raise ValueError
      end
  | PNone | PList _ => Raise TypeError
  end.

(** The conditional expression of the generator in [_handle_debug]. *)
Definition debug_mode (mode : string) : string :=
  if str_in mode ALLOWED_DEBUG_MODES then mode
  else if str2bool mode mode then "1"
  else "".

(** What the documentation of the debug modes asks of one component [mode]
    of the query parameter and the component [stored] for it: an allowed
    mode is kept; any other truthy one becomes ['1'], any other falsy one
    the empty string. *)
Inductive debug_mode_spec (mode : string) : string -> Prop :=
| mode_kept :
    In mode ALLOWED_DEBUG_MODES -> debug_mode_spec mode mode
| mode_truthy :
    ~ In mode ALLOWED_DEBUG_MODES -> str2bool mode mode = true ->
    debug_mode_spec mode "1"
| mode_falsy :
    ~ In mode ALLOWED_DEBUG_MODES -> str2bool mode mode = false ->
    debug_mode_spec mode "".

(** [_handle_debug]: reads [debug] from the query string and, when it is
    there, assigns [request.session.debug]. *)
Definition _handle_debug (args : MultiDict) (session : Session.t)
  : Session.t :=
  let debug := args_get "debug" args in
  match debug with
  | Some debug =>
      Session.set_debug
        (join ","
           (map debug_mode
              (split "," (if String.eqb debug "" then "" else debug))))
        session
  | None => session
  end.

(** The value of the comprehension of [get_currencies] for the row [c]. *)
Definition currency_entry (c : Currency.t) : gmap string pyval :=
  {[ "symbol" := Currency.symbol c;
     "position" := Currency.position c;
     "digits" := PList [PInt 69; Currency.decimal_places c] ]}.

(** [get_currencies]: the dictionary comprehension over the rows read, a
    later row replacing an earlier one of the same id. *)
Definition get_currencies : gmap Z (gmap string pyval) :=
  let currencies := currency_read in
  foldl (fun d c => <[Currency.id c := currency_entry c]> d) ∅ currencies.

(** [{str(k): v for k, v in menus.items()}]. *)
Definition ordered_menus (menus : list (pykey * menu)) : gmap string menu :=
  foldl (fun d kv => <[str kv.1 := kv.2]> d) ∅ menus.

(** [{comp.id: {'id': ..., 'name': ..., 'sequence': ...} for comp in
    user.company_ids}]. *)
Definition allowed_companies (companies : list Company.t)
  : gmap Z (gmap string pyval) :=
  foldl
    (fun d comp =>
       <[Company.id comp :=
           {[ "id" := PInt (Company.id comp);
              "name" := Company.name comp;
              "sequence" := Company.sequence comp ]}]> d)
    ∅ companies.

(** [session_info]: the payload, or the exception raised, together with the
    session as the call leaves it. The method only tests [session_uid] and
    returns it under ['uid']: the local [session_uid] below is its truth
    value. *)
Definition session_info (session : Session.t)
  : result SessionInfo.t * Session.t :=
  let user := env_user in
  let session_uid := Session.logged_in session in
  let version_info := exp_version in
  let '(user_context, session) :=
    if session_uid then
      let user_context := context_get in
      if bool_decide (user_context ≠ Session.context session)
      then (user_context, Session.set_context user_context session)
      else (user_context, session)
    else (∅, session) in
  (max_file_upload_size ←
     int (get_param "web.max_file_upload_size" (PInt (128 * 1024 * 1024)));
   let mods := server_wide_modules in
   let mods := if truthy request_db then (init_modules ++ mods)%list else mods in
   active_ids_limit ←
     int (get_param "web.active_ids_limit" (PStr "20000"));
   translations ←
     (if session_uid then
        lang ← getitem (Session.context session) "lang";
        mret (get_web_translations_hash mods lang)
      else mret PNone);
   let session_info :=
     {| SessionInfo.uid := Session.uid session;
        SessionInfo.is_system :=
          if session_uid then User._is_system user else false;
        SessionInfo.is_admin :=
          if session_uid then User._is_admin user else false;
        SessionInfo.user_context := user_context;
        SessionInfo.db := cr_dbname;
        SessionInfo.server_version := dict_get version_info "server_version";
        SessionInfo.server_version_info :=
          dict_get version_info "server_version_info";
        SessionInfo.support_url := "https://www.odoo.com/buy";
        SessionInfo.name := User.name user;
        SessionInfo.username := User.login user;
        SessionInfo.partner_display_name := User.partner_display_name user;
        SessionInfo.company_id :=
          if session_uid then record_id (User.company_id user) else PNone;
        SessionInfo.partner_id :=
          match User.partner_id user with
          | Some i => if session_uid then PInt i else PNone
          | None => PNone
          end;
        SessionInfo.web_base_url := get_param "web.base.url" (PStr "");
        SessionInfo.active_ids_limit := active_ids_limit;
        SessionInfo.profile_session := Session.profile_session session;
        SessionInfo.profile_collectors := Session.profile_collectors session;
        SessionInfo.profile_params := Session.profile_params session;
        SessionInfo.max_file_upload_size := max_file_upload_size;
        SessionInfo.home_action_id := record_id (User.action_id user);
        SessionInfo.cache_hashes := {[ "translations" := translations ]};
        SessionInfo.currencies := get_currencies;
        SessionInfo.user_companies := None;
        SessionInfo.show_effect := None;
        SessionInfo.display_switch_company_menu := None |} in
   if User.has_group user "base.group_user" then
     let qweb_checksum :=
       get_qweb_templates_checksum (Session.debug session)
                                   "web.assets_qweb" in
     let menus := load_menus (Session.debug session) in
     let ordered_menus := ordered_menus menus in
     let menu_json_utf8 := encode (json_dumps ordered_menus) in
     let session_info :=
       SessionInfo.update_cache_hashes
         {[ "load_menus" := PStr (prefix 64 (sha512_hexdigest menu_json_utf8));
            "qweb" := qweb_checksum ]}
         session_info in
     let session_info :=
       SessionInfo.update_companies
         {| UserCompanies.current_company :=
              record_id (User.company_id user);
            UserCompanies.allowed_companies :=
              allowed_companies (User.company_ids user) |}
         true
         (User.has_group user "base.group_multi_company"
          && Z.ltb 1 (Z.of_nat (length (User.company_ids user))))
         session_info in
     mret session_info
   else mret session_info,
   session).

(** [_get_content_common]. *)
Definition _get_content_common (xmlid : pyval) (model : string)
    (res_id : pyval) (field : string)
    (unique filename filename_field download mimetype access_token
       token : pyval)
  : Response.t :=
  let '(status, headers, content) :=
    binary_content
      {| BinaryContent.xmlid := xmlid; BinaryContent.model := model;
         BinaryContent.id := res_id; BinaryContent.field := field;
         BinaryContent.unique := unique; BinaryContent.filename := filename;
         BinaryContent.filename_field := filename_field;
         BinaryContent.download := download;
         BinaryContent.mimetype := mimetype;
         BinaryContent.default_mimetype := None;
         BinaryContent.access_token := access_token |} in
  if negb (Z.eqb status 200) then _response_by_status status headers content
  else
    let headers := (headers ++ [("Content-Length", PInt (len content))])%list in
    let response := make_response content headers in
    response.

(** [_placeholder]: the bytes of the named image file, or of the static
    placeholder when no name is given. *)
Definition _placeholder (image : option string) : result (list byte) :=
  let image :=
    match image with
    | Some name =>
        if String.eqb name "" then "web/static/img/placeholder.png" else name
    | None => "web/static/img/placeholder.png"
    end in
  file_open image [".png"; ".jpg"].

(** [_content_image_get_response]. An exception raised outside the [try]
    block leaves the method; one raised inside it is answered by
    [request.not_found()]. *)
Definition _content_image_get_response (status : Z) (headers : list header)
    (image : list byte) (model field : string)
    (download width height crop quality : pyval)
  : result Response.t :=
  if Z.eqb status 301 || Z.eqb status 304
     || (negb (Z.eqb status 200) && truthy download)
  then mret (_response_by_status status headers image)
  else
    '(image, status, width, height) ←
      (match image with
       | [] =>
           let placeholder_filename :=
             if model_in_env model
             then _get_placeholder_filename model field
             else None in
           image ← _placeholder placeholder_filename;
           let status := 200 in
           if negb (truthy (py_or width height)) then
             let '(width, height) := image_guess_size_from_field_name field in
             mret (image, status, PInt width, PInt height)
           else mret (image, status, width, height)
       | _ :: _ => mret (image, status, width, height)
       end);
    match
      (w ← int width;
       h ← int height;
       q ← int quality;
       image_process image (w, h) crop q)
    with
    | Raise _ => mret not_found
    | Ok content =>
        let headers := set_safe_image_headers headers content in
        let response := make_response content headers in
        let response := Response.set_status_code status response in
        mret response
    end.

(** What [_content_image_get_response] hands to [image_process] when it
    gets that far, for an image [image] and the sizes [width] and [height]
    asked for: the image and the sizes themselves; for an empty image, the
    bytes of the placeholder, with the sizes asked for or, when none is,
    the sizes guessed from the name of the field. *)
Inductive image_process_input (image : list byte) (model field : string)
    (width height : pyval) : list byte -> pyval -> pyval -> Prop :=
| input_image :
    image <> [] ->
    image_process_input image model field width height image width height
| input_placeholder (placeholder : list byte) :
    image = [] ->
    _placeholder (if model_in_env model
                  then _get_placeholder_filename model field
                  else None) = Ok placeholder ->
    truthy (py_or width height) = true ->
    image_process_input image model field width height
                        placeholder width height
| input_placeholder_guessed (placeholder : list byte) (w h : Z) :
    image = [] ->
    _placeholder (if model_in_env model
                  then _get_placeholder_filename model field
                  else None) = Ok placeholder ->
    truthy (py_or width height) = false ->
    image_guess_size_from_field_name field = (w, h) ->
    image_process_input image model field width height
                        placeholder (PInt w) (PInt h).

(** [_content_image]. *)
Definition _content_image (xmlid : pyval) (model : string) (res_id : pyval)
    (field : string)
    (filename_field unique filename mimetype download width height crop
       quality access_token : pyval)
  : result Response.t :=
  let '(status, headers, image) :=
    binary_content
      {| BinaryContent.xmlid := xmlid; BinaryContent.model := model;
         BinaryContent.id := res_id; BinaryContent.field := field;
         BinaryContent.unique := unique; BinaryContent.filename := filename;
         BinaryContent.filename_field := filename_field;
         BinaryContent.download := download;
         BinaryContent.mimetype := mimetype;
         BinaryContent.default_mimetype := Some "image/png";
         BinaryContent.access_token := access_token |} in
  _content_image_get_response status headers image model field download
                              width height crop quality.

(** [_placeholder_image_get_response]. *)
Definition _placeholder_image_get_response (content : list byte)
  : Response.t :=
  let headers := set_safe_image_headers [] content in
  let response := make_response content headers in
  Response.set_status_code 200 response.

End Http.

(** ** The other methods of the mixin *)

(** [p] starts [s]: [s.startswith(p)]. *)
Fixpoint startswith (p s : string) : bool :=
  match p, s with
  | EmptyString, _ => true
  | String a p', String b s' => Ascii.eqb a b && startswith p' s'
  | String _ _, EmptyString => false
  end.

(** [sub in s] for two strings: [sub] occurs in [s]. *)
Fixpoint contains (sub s : string) : bool :=
  startswith sub s
  || match s with
     | EmptyString => false
     | String _ s' => contains sub s'
     end.

(** What the remaining methods read and call besides [Tools] and [Env]. *)
Class Host : Type := {
  (** [str.lower]. *)
  lower : string -> string;
  (** The type of the routing rule and of the arguments of the route. *)
  rule : Type;
  route_args : Type;
  (** [super()._pre_dispatch(rule, args)] of the base [ir.http]: the
      exception it raises, if any, and the session as it leaves it. *)
  super_pre_dispatch :
    rule -> route_args -> Session.t -> result unit * Session.t;
  (** [self.env.user._is_public()] and [self.env.user.id]. *)
  _is_public : bool;
  user_id : Z;
}.

Module FrontendSessionInfo.
(** The dictionary [get_frontend_session_info] returns; the two last keys
    are only there for a logged-in user. *)
Record t : Type := mk {
  is_admin : bool;
  is_system : bool;
  is_website_user : bool;
  user_id : pyval;
  is_frontend : bool;
  profile_session : pyval;
  profile_collectors : pyval;
  profile_params : pyval;
  show_effect : bool;
  server_version : option pyval;
  server_version_info : option pyval;
}.
End FrontendSessionInfo.

Section HttpRest.

Context `{Tools} `{Env} `{Host}.

(** The class attribute [bots]. *)
Definition bots : list string :=
  ["bot"; "crawl"; "slurp"; "spider"; "curl"; "wget"; "facebookexternalhit";
   "whatsapp"; "trendsmapresolver"; "pinterest"; "instagram"].

(** [is_a_bot], on [request.httprequest.user_agent.string]. *)
Definition is_a_bot (user_agent_string : string) : bool :=
  let user_agent := lower user_agent_string in
  existsb (fun bot => contains bot user_agent) bots.

(** [_pre_dispatch]: the debug parameter is handled once the base method
    returned; [query] is [request.httprequest.args]. *)
Definition _pre_dispatch (r : rule) (args : route_args) (query : MultiDict)
    (session : Session.t) : result unit * Session.t :=
  match super_pre_dispatch r args session with
  | (Ok _, session) => (Ok tt, _handle_debug query session)
  | (Raise e, session) => (Raise e, session)
  end.


(** [get_frontend_session_info]. The parameter [base_setup.show_effect] is
    read with no default given, which [get_param] takes as [False]. *)
Definition get_frontend_session_info (session : Session.t)
  : FrontendSessionInfo.t :=
  let user := env_user in
  let session_uid := Session.logged_in session in
  let session_info :=
    {| FrontendSessionInfo.is_admin :=
         if session_uid then User._is_admin user else false;
       FrontendSessionInfo.is_system :=
         if session_uid then User._is_system user else false;
       FrontendSessionInfo.is_website_user :=
         if session_uid then _is_public else false;
       FrontendSessionInfo.user_id :=
         if session_uid then PInt user_id else PBool false;
       FrontendSessionInfo.is_frontend := true;
       FrontendSessionInfo.profile_session :=
         Session.profile_session session;
       FrontendSessionInfo.profile_collectors :=
         Session.profile_collectors session;
       FrontendSessionInfo.profile_params := Session.profile_params session;
       FrontendSessionInfo.show_effect :=
         truthy (get_param "base_setup.show_effect" (PBool false));
       FrontendSessionInfo.server_version := None;
       FrontendSessionInfo.server_version_info := None |} in
  if session_uid then
    let version_info := exp_version in
    {| FrontendSessionInfo.is_admin :=
         FrontendSessionInfo.is_admin session_info;
       FrontendSessionInfo.is_system :=
         FrontendSessionInfo.is_system session_info;
       FrontendSessionInfo.is_website_user :=
         FrontendSessionInfo.is_website_user session_info;
       FrontendSessionInfo.user_id :=
         FrontendSessionInfo.user_id session_info;
       FrontendSessionInfo.is_frontend :=
         FrontendSessionInfo.is_frontend session_info;
       FrontendSessionInfo.profile_session :=
         FrontendSessionInfo.profile_session session_info;
       FrontendSessionInfo.profile_collectors :=
         FrontendSessionInfo.profile_collectors session_info;
       FrontendSessionInfo.profile_params :=
         FrontendSessionInfo.profile_params session_info;
       FrontendSessionInfo.show_effect :=
         FrontendSessionInfo.show_effect session_info;
       FrontendSessionInfo.server_version :=
         Some (dict_get version_info "server_version");
       FrontendSessionInfo.server_version_info :=
         Some (dict_get version_info "server_version_info") |}
  else session_info.

End HttpRest.

(** ** Running the examples: SHA-512, decimal integers, a tiny JSON printer

    What follows gives the externals one concrete meaning each, so that the
    methods above can be run on examples. The theorems do not depend on
    them. *)

Module SHA512.

Local Open Scope Z_scope.

(** [hashlib.sha512] (FIPS 180-4), on 64-bit words kept in [Z]. *)

Definition w64 (x : Z) : Z := x mod 2 ^ 64.

Definition rotr (n x : Z) : Z :=
  Z.lor (Z.shiftr x n) (w64 (Z.shiftl x (64 - n))).

Definition xor3 (a b c : Z) : Z := Z.lxor (Z.lxor a b) c.

Definition Ch (e f g : Z) : Z :=
  Z.lxor (Z.land e f) (Z.land (Z.lxor e (2 ^ 64 - 1)) g).

Definition Maj (a b c : Z) : Z :=
  xor3 (Z.land a b) (Z.land a c) (Z.land b c).

Definition Sigma0 (a : Z) : Z := xor3 (rotr 28 a) (rotr 34 a) (rotr 39 a).
Definition Sigma1 (e : Z) : Z := xor3 (rotr 14 e) (rotr 18 e) (rotr 41 e).
Definition sigma0 (x : Z) : Z := xor3 (rotr 1 x) (rotr 8 x) (Z.shiftr x 7).
Definition sigma1 (x : Z) : Z := xor3 (rotr 19 x) (rotr 61 x) (Z.shiftr x 6).

Definition K : list Z :=
  [
   0x428a2f98d728ae22; 0x7137449123ef65cd; 0xb5c0fbcfec4d3b2f; 0xe9b5dba58189dbbc;
   0x3956c25bf348b538; 0x59f111f1b605d019; 0x923f82a4af194f9b; 0xab1c5ed5da6d8118;
   0xd807aa98a3030242; 0x12835b0145706fbe; 0x243185be4ee4b28c; 0x550c7dc3d5ffb4e2;
   0x72be5d74f27b896f; 0x80deb1fe3b1696b1; 0x9bdc06a725c71235; 0xc19bf174cf692694;
   0xe49b69c19ef14ad2; 0xefbe4786384f25e3; 0x0fc19dc68b8cd5b5; 0x240ca1cc77ac9c65;
   0x2de92c6f592b0275; 0x4a7484aa6ea6e483; 0x5cb0a9dcbd41fbd4; 0x76f988da831153b5;
   0x983e5152ee66dfab; 0xa831c66d2db43210; 0xb00327c898fb213f; 0xbf597fc7beef0ee4;
   0xc6e00bf33da88fc2; 0xd5a79147930aa725; 0x06ca6351e003826f; 0x142929670a0e6e70;
   0x27b70a8546d22ffc; 0x2e1b21385c26c926; 0x4d2c6dfc5ac42aed; 0x53380d139d95b3df;
   0x650a73548baf63de; 0x766a0abb3c77b2a8; 0x81c2c92e47edaee6; 0x92722c851482353b;
   0xa2bfe8a14cf10364; 0xa81a664bbc423001; 0xc24b8b70d0f89791; 0xc76c51a30654be30;
   0xd192e819d6ef5218; 0xd69906245565a910; 0xf40e35855771202a; 0x106aa07032bbd1b8;
   0x19a4c116b8d2d0c8; 0x1e376c085141ab53; 0x2748774cdf8eeb99; 0x34b0bcb5e19b48a8;
   0x391c0cb3c5c95a63; 0x4ed8aa4ae3418acb; 0x5b9cca4f7763e373; 0x682e6ff3d6b2b8a3;
   0x748f82ee5defb2fc; 0x78a5636f43172f60; 0x84c87814a1f0ab72; 0x8cc702081a6439ec;
   0x90befffa23631e28; 0xa4506cebde82bde9; 0xbef9a3f7b2c67915; 0xc67178f2e372532b;
   0xca273eceea26619c; 0xd186b8c721c0c207; 0xeada7dd6cde0eb1e; 0xf57d4f7fee6ed178;
   0x06f067aa72176fba; 0x0a637dc5a2c898a6; 0x113f9804bef90dae; 0x1b710b35131c471b;
   0x28db77f523047d84; 0x32caab7b40c72493; 0x3c9ebe0a15c9bebc; 0x431d67c49c100d4c;
   0x4cc5d4becb3e42b6; 0x597f299cfc657e2a; 0x5fcb6fab3ad6faec; 0x6c44198c4a475817
  ].

Definition H0 : list Z :=
  [
   0x6a09e667f3bcc908; 0xbb67ae8584caa73b; 0x3c6ef372fe94f82b; 0xa54ff53a5f1d36f1;
   0x510e527fade682d1; 0x9b05688c2b3e6c1f; 0x1f83d9abfb41bd6b; 0x5be0cd19137e2179
  ].

(** The message schedule, from the window of the sixteen latest words
    (oldest first): [n] words, starting with the oldest of the window. *)
Fixpoint schedule (n : nat) (window : list Z) : list Z :=
  match n, window with
  | S n', w16 :: rest =>
      let w15 := nth 0 rest 0 in
      let w7 := nth 8 rest 0 in
      let w2 := nth 13 rest 0 in
      let new := w64 (sigma1 w2 + w7 + sigma0 w15 + w16) in
      w16 :: schedule n' (rest ++ [new])
  | _, _ => []
  end.

Definition state : Type := Z * Z * Z * Z * Z * Z * Z * Z.

Definition round (s : state) (kw : Z * Z) : state :=
  let '(a, b, c, d, e, f, g, h) := s in
  let t1 := h + Sigma1 e + Ch e f g + kw.1 + kw.2 in
  let t2 := Sigma0 a + Maj a b c in
  (w64 (t1 + t2), a, b, c, w64 (d + t1), e, f, g).

Definition add_state (s t : state) : state :=
  let '(a, b, c, d, e, f, g, h) := s in
  let '(a', b', c', d', e', f', g', h') := t in
  (w64 (a + a'), w64 (b + b'), w64 (c + c'), w64 (d + d'),
   w64 (e + e'), w64 (f + f'), w64 (g + g'), w64 (h + h')).

(** Big-endian words of a block of bytes. *)
Fixpoint words (n : nat) (bytes : list Z) : list Z :=
  match n with
  | O => []
  | S n' =>
      fold_left (fun acc b => acc * 256 + b) (firstn 8 bytes) 0
      :: words n' (skipn 8 bytes)
  end.

Definition compress (s : state) (block : list Z) : state :=
  add_state s (fold_left round (combine K (schedule 80 (words 16 block))) s).

Fixpoint blocks (n : nat) (s : state) (bytes : list Z) : state :=
  match n with
  | O => s
  | S n' => blocks n' (compress s (firstn 128 bytes)) (skipn 128 bytes)
  end.

(** The big-endian bytes of [x], [n] of them. *)
Fixpoint be_bytes (n : nat) (x : Z) : list Z :=
  match n with
  | O => []
  | S n' => (be_bytes n' (x / 256) ++ [x mod 256])%list
  end.

Definition pad (msg : list Z) : list Z :=
  let l := Z.of_nat (length msg) in
  (msg ++ [128] ++ repeat 0 (Z.to_nat ((111 - l) mod 128))
       ++ be_bytes 16 (8 * l))%list.

Definition digest (msg : list byte) : list Z :=
  let padded := pad (map (fun b => Z.of_N (Byte.to_N b)) msg) in
  let s0 := (nth 0 H0 0, nth 1 H0 0, nth 2 H0 0, nth 3 H0 0,
             nth 4 H0 0, nth 5 H0 0, nth 6 H0 0, nth 7 H0 0) in
  let '(a, b, c, d, e, f, g, h) :=
    blocks (length padded / 128) s0 padded in
  flat_map (be_bytes 8) [a; b; c; d; e; f; g; h].

Definition hex_digit (x : Z) : ascii :=
  ascii_of_N (Z.to_N (if x <? 10 then 48 + x else 87 + x)).

Definition hexdigest (msg : list byte) : string :=
  string_of_list_ascii
    (flat_map (fun b => [hex_digit (b / 16); hex_digit (b mod 16)])
              (digest msg)).

End SHA512.

Module Sample.

(** ASCII lower case, enough of [str.lower] for the modes of [str2bool]. *)
Definition lower_ascii (c : ascii) : ascii :=
  let n := nat_of_ascii c in
  if Nat.leb 65 n && Nat.leb n 90 then ascii_of_nat (n + 32) else c.

Fixpoint lower (s : string) : string :=
  match s with
  | EmptyString => EmptyString
  | String c rest => String (lower_ascii c) (lower rest)
  end.

(** [odoo.tools.misc.str2bool] with a [str] default: the words for yes and
    no, in any case; [bool(default)] for any other string. *)
Definition str2bool (s default : string) : bool :=
  let s := lower s in
  let y := ["y"; "yes"; "1"; "true"; "t"; "on"] in
  let n := ["n"; "no"; "0"; "false"; "f"; "off"] in
  if negb (str_in s (y ++ n)%list) then negb (String.eqb default "")
  else str_in s y.

(** A run of decimal digits. *)
Fixpoint digits (s : string) (acc : Z) : option Z :=
  match s with
  | EmptyString => Some acc
  | String c rest =>
      let n := Z.of_nat (nat_of_ascii c) in
      if Z.leb 48 n && Z.leb n 57 then digits rest (10 * acc + (n - 48))
      else None
  end.

(** [int(s)] on an optional sign followed by decimal digits, and
    [ValueError] on anything else. *)
Definition int_of_str (s : string) : option Z :=
  match s with
  | EmptyString => None
  | String c rest =>
      if Ascii.eqb c "-" then
        if String.eqb rest "" then None else Z.opp <$> digits rest 0
      else if Ascii.eqb c "+" then
        if String.eqb rest "" then None else digits rest 0
      else digits s 0
  end.

(** A codec that knows no image format: the source itself when no operation
    is requested, as [image_process] gives it; the decoding error
    otherwise. *)
Definition image_process (source : list byte) (size : Z * Z) (crop : pyval)
    (quality : Z) : result (list byte) :=
  if Z.eqb size.1 0 && Z.eqb size.2 0 && Z.eqb quality 0 && negb (truthy crop)
  then Ok source
  else Raise (Exception "This file could not be decoded as an image file.").

(** [image_guess_size_from_field_name]: the number that ends the field name
    ([1024] for [image]), for both sides; zero when there is none. *)
Definition image_guess_size_from_field_name (field_name : string) : Z * Z :=
  let suffix :=
    if String.eqb field_name "image" then "1024"
    else List.last (split "_" field_name) "" in
  match int_of_str suffix with
  | Some n => (n, n)
  | None => (0, 0)
  end.

(** [s.endswith(suffix)]. *)
Definition endswith (s suffix : string) : bool :=
  let n := String.length s in
  let k := String.length suffix in
  Nat.leb k n && String.eqb (String.substring (n - k) k s) suffix.

(** A file system with the static placeholder and one avatar. *)
Definition file_open (name : string) (filter_ext : list string)
  : result (list byte) :=
  if negb (existsb (endswith name) filter_ext) then Raise ValueError
  else if String.eqb name "web/static/img/placeholder.png"
  then Ok (encode "placeholder")
  else if String.eqb name "base/static/img/avatar_grey.png"
  then Ok (encode "avatar")
  else Raise OSError.

(** Sets [Content-Length], replacing an earlier one. *)
Definition set_safe_image_headers (headers : list header)
    (content : list byte) : list header :=
  (filter (fun h => negb (String.eqb h.1 "Content-Length")) headers
     ++ [("Content-Length", PInt (len content))])%list.

#[export] Instance tools : Tools :=
  Build_Tools str2bool int_of_str image_process
              image_guess_size_from_field_name file_open
              set_safe_image_headers SHA512.hexdigest.

(** Insertion into a list of items sorted by key. *)
Fixpoint insert_sorted {V} (kv : string * V) (l : list (string * V))
  : list (string * V) :=
  match l with
  | [] => [kv]
  | kv' :: rest =>
      if String.leb kv.1 kv'.1 then kv :: l
      else kv' :: insert_sorted kv rest
  end.

Definition quote (s : string) : string :=
  String (ascii_of_nat 34) (s ++ String (ascii_of_nat 34) EmptyString).

(** [json.dumps(d, sort_keys=True)] where every value is a list of
    integers. The keys are printed without escapes. *)
Definition json_dumps (d : gmap string (list Z)) : string :=
  let items := foldr insert_sorted [] (map_to_list d) in
  "{"
  ++ join ", "
       (map (fun kv =>
               quote kv.1 ++ ": [" ++ join ", " (map pretty kv.2) ++ "]")
            items)
  ++ "}".

(** The administrator of a database with one company. *)
Definition admin : User.t := {|
  User.name := PStr "Mitchell Admin";
  User.login := PStr "admin";
  User.partner_id := Some 3;
  User.partner_display_name := PStr "YourCompany, Mitchell Admin";
  User.company_id := Some 1;
  User.company_ids := [Company.mk 1 (PStr "YourCompany") (PInt 10)];
  User.action_id := None;
  User._is_system := true;
  User._is_admin := true;
  User.has_group := fun g => String.eqb g "base.group_user";
|}.

Definition EUR : Currency.t :=
  Currency.mk 1 (PStr "EUR") (PStr "after") (PInt 2).

Definition USD : Currency.t :=
  Currency.mk 2 (PStr "$") (PStr "before") (PInt 2).

(** A request by the administrator. A menu is the list of the ids of its
    children; the attachment 7 is the only record with content, any other
    content request is answered 404 with no content. *)
#[export] Instance env : Env :=
  Build_Env
    (* menu *)
    (list Z)
    (* env_user *)
    (admin)
    (* exp_version *)
    ({[ "server_version" := PStr "15.0";
       "server_version_info" :=
         PList [PInt 15; PInt 0; PInt 0; PStr "final"; PInt 0; PStr ""] ]})
    (* context_get *)
    ({[ "lang" := PStr "en_US"; "tz" := PStr "Europe/Brussels";
       "uid" := PInt 2 ]})
    (* get_param *)
    (fun _ default => default)
    (* server_wide_modules *)
    (["base"; "web"])
    (* request_db *)
    (PStr "odoo")
    (* cr_dbname *)
    (PStr "odoo")
    (* init_modules *)
    ([])
    (* get_web_translations_hash *)
    (fun _ _ => PStr "0")
    (* get_qweb_templates_checksum *)
    (fun _ _ => PStr "0")
    (* load_menus *)
    (fun _ => [(KInt 1, []); (KStr "root", [1])])
    (* json_dumps *)
    (json_dumps)
    (* currency_read *)
    ([EUR; USD])
    (* binary_content *)
    (fun a =>
       if String.eqb (BinaryContent.model a) "ir.attachment"
          && bool_decide (BinaryContent.id a = PInt 7)
       then (200, [("Content-Type", PStr "text/plain")], encode "hello")
       else (404, [], []))
    (* _response_by_status *)
    (fun status headers content =>
    if Z.eqb status 304 then Response.mk 304 headers []
    else if Z.eqb status 301 then Response.mk 301 [] []
    else not_found)
    (* model_in_env *)
    (fun model =>
    str_in model ["ir.attachment"; "res.partner"])
    (* _get_placeholder_filename *)
    (fun model field =>
    if String.eqb model "res.partner"
    then Some "base/static/img/avatar_grey.png"
    else None).

(** A session of the administrator whose context was not loaded yet, and
    the session of a visitor. *)
Definition fresh_session : Session.t :=
  Session.mk (Some 2) "" ∅ PNone PNone PNone.

Definition public_session : Session.t :=
  Session.mk None "" ∅ PNone PNone PNone.

(** A base dispatch that refuses the routing rule [false] and otherwise
    leaves the session as it is; the administrator is the user 2. *)
#[export] Instance host : Host :=
  Build_Host lower bool unit
             (fun r _ session =>
                (if r then Ok tt else Raise (Exception "Forbidden"), session))
             false 2.

End Sample.

(** The sample request in another database: with the context [context] for
    the user, the configuration parameters [param] and the placeholder
    files [placeholder]. *)
Definition sample_env_with (context : gmap string pyval)
    (param : string -> pyval -> pyval)
    (placeholder : string -> string -> option string) : Env :=
  Build_Env (@menu Sample.env) (@env_user Sample.env)
            (@exp_version Sample.env) context param
            (@server_wide_modules Sample.env) (@request_db Sample.env)
            (@cr_dbname Sample.env) (@init_modules Sample.env)
            (@get_web_translations_hash Sample.env)
            (@get_qweb_templates_checksum Sample.env)
            (@load_menus Sample.env) (@json_dumps Sample.env)
            (@currency_read Sample.env) (@binary_content Sample.env)
            (@_response_by_status Sample.env) (@model_in_env Sample.env)
            placeholder.

(** A database whose users have no language, and one where the partners
    name a placeholder of a type that [_placeholder] does not open. *)
Definition env_without_lang : Env :=
  sample_env_with ∅ (fun _ default => default) (fun _ _ => None).

Definition env_with_gif_placeholder : Env :=
  sample_env_with ∅ (fun _ default => default)
                  (fun model _ =>
                     if String.eqb model "res.partner"
                     then Some "base/static/img/avatar.gif"
                     else None).

(** * Properties *)

(** ** Splitting and joining *)

Section SplitJoin.

Variable sep : ascii.

Lemma split_not_nil (s : string) : split sep s <> [].
Proof.
  destruct s as [|c rest]; simpl; [discriminate|].
  destruct (Ascii.eqb c sep); [discriminate|].
  destruct (split sep rest); discriminate.
Qed.

(** Joining the pieces with the separator gives the string back. *)
Lemma join_split (s : string) : join (String sep EmptyString) (split sep s) = s.
Proof.
  induction s as [|c rest IH]; simpl; [reflexivity|].
  destruct (Ascii.eqb_spec c sep) as [->|Hne].
  - pose proof (split_not_nil rest) as Hnil.
    destruct (split sep rest) as [|w ws]; [congruence|].
    simpl in *. now rewrite IH.
  - pose proof (split_not_nil rest) as Hnil.
    destruct (split sep rest) as [|w ws]; [congruence|].
    destruct ws as [|w' ws]; simpl in *; now rewrite <- IH.
Qed.

(** No piece holds the separator. *)
Lemma split_no_sep (s : string) :
  Forall (fun w => has_char sep w = false) (split sep s).
Proof.
  induction s as [|c rest IH]; simpl.
  - repeat constructor.
  - destruct (Ascii.eqb_spec c sep) as [->|Hne].
    + constructor; [reflexivity | exact IH].
    + destruct (split sep rest) as [|w ws].
      * repeat constructor. simpl.
        destruct (Ascii.eqb_spec c sep); [contradiction | reflexivity].
      * inversion IH; subst. constructor; [|assumption].
        simpl. destruct (Ascii.eqb_spec c sep); [contradiction | assumption].
Qed.

Lemma split_one (w : string) : has_char sep w = false -> split sep w = [w].
Proof.
  induction w as [|c w IH]; simpl; [reflexivity|].
  destruct (Ascii.eqb c sep); simpl; [discriminate|].
  intros Hw. now rewrite (IH Hw).
Qed.

Lemma split_app (w rest : string) :
  has_char sep w = false ->
  split sep (w ++ String sep rest) = w :: split sep rest.
Proof.
  induction w as [|c w IH]; simpl.
  - intros _. now rewrite Ascii.eqb_refl.
  - destruct (Ascii.eqb c sep); simpl; [discriminate|].
    intros Hw. now rewrite (IH Hw).
Qed.

(** Splitting a join of separator-free pieces gives the pieces back. *)
Lemma split_join (l : list string) :
  l <> [] ->
  Forall (fun w => has_char sep w = false) l ->
  split sep (join (String sep EmptyString) l) = l.
Proof.
  induction l as [|w l IH]; [congruence|].
  intros _ Hall. inversion Hall as [|? ? Hw Hl]; subst.
  destruct l as [|w' l].
  - simpl. now apply split_one.
  - change (join (String sep EmptyString) (w :: w' :: l))
      with (w ++ String sep (join (String sep EmptyString) (w' :: l))).
    rewrite split_app by assumption.
    f_equal. apply IH; [discriminate | assumption].
Qed.

End SplitJoin.

(** ** Debug modes *)

Lemma str_in_In (x : string) (l : list string) : str_in x l = true <-> In x l.
Proof.
  unfold str_in. rewrite existsb_exists. split.
  - intros (y & Hy & Heq). apply String.eqb_eq in Heq. now subst.
  - intros Hx. exists x. split; [assumption | apply String.eqb_refl].
Qed.

Lemma allowed_no_comma (m : string) :
  In m ALLOWED_DEBUG_MODES -> has_char "," m = false.
Proof.
  unfold ALLOWED_DEBUG_MODES. simpl.
  intros [<-|[<-|[<-|[<-|[]]]]]; reflexivity.
Qed.

Section Debug.

Context `{Tools}.


(** The documentation leaves no choice: it determines the stored mode. *)
Lemma debug_mode_spec_unique (mode stored : string) :
  debug_mode_spec mode stored -> stored = debug_mode mode.
Proof.
  unfold debug_mode. intros [Hin|Hout Hb|Hout Hb].
  - apply str_in_In in Hin. now rewrite Hin.
  - destruct (str_in mode ALLOWED_DEBUG_MODES) eqn:Hin.
    + apply str_in_In in Hin. contradiction.
    + now rewrite Hb.
  - destruct (str_in mode ALLOWED_DEBUG_MODES) eqn:Hin.
    + apply str_in_In in Hin. contradiction.
    + now rewrite Hb.
Qed.

Lemma debug_mode_allowed (mode : string) :
  In (debug_mode mode) ALLOWED_DEBUG_MODES.
Proof.
  unfold debug_mode.
  destruct (str_in mode ALLOWED_DEBUG_MODES) eqn:Hin.
  - now apply str_in_In.
  - destruct (str2bool mode mode); simpl; auto.
Qed.


Lemma map_debug_mode_allowed (modes : list string) :
  Forall (fun mode => In mode ALLOWED_DEBUG_MODES) (map debug_mode modes).
Proof.
  induction modes as [|m ms IH]; cbn [map]; constructor;
    [apply debug_mode_allowed | exact IH].
Qed.

(** What [_handle_debug] does when the parameter is there. *)
Lemma handle_debug_present (args : MultiDict) (session : Session.t)
    (d : string) :
  args_get "debug" args = Some d ->
  _handle_debug args session =
  Session.set_debug (join "," (map debug_mode (split "," d))) session.
Proof.
  intros Hd. unfold _handle_debug. rewrite Hd.
  destruct (String.eqb_spec d "") as [->|_]; reflexivity.
Qed.


(** C2. After [_handle_debug] ran on a request with a [debug] parameter,
    every comma-separated component of [session.debug] is one of [''],
    ['1'], ['assets'], ['tests'], whatever the parameter was. *)
Theorem handle_debug_components_allowed
    (args : MultiDict) (session : Session.t) (d : string) :
  args_get "debug" args = Some d ->
  Forall (fun mode => In mode ALLOWED_DEBUG_MODES)
         (split "," (Session.debug (_handle_debug args session))).
Proof.
  intros Hd. rewrite (handle_debug_present _ _ _ Hd). simpl.
  pose proof (map_debug_mode_allowed (split "," d)) as Hall.
  rewrite split_join; [exact Hall | |].
  - pose proof (split_not_nil "," d) as Hnil.
    destruct (split "," d); [congruence | discriminate].
  - eapply Forall_impl; [exact Hall|]. apply allowed_no_comma.
Qed.


End Debug.

(** ** The currency table *)

Section Currencies.

Context `{Env}.

Lemma currencies_fold_other (rows : list Currency.t)
    (d : gmap Z (gmap string pyval)) (k : Z) :
  ~ In k (map Currency.id rows) ->
  foldl (fun d c => <[Currency.id c := currency_entry c]> d) d rows !! k
  = d !! k.
Proof.
  revert d. induction rows as [|c rows IH]; intros d Hk; [reflexivity|].
  simpl in *. rewrite IH by tauto.
  apply lookup_insert_ne. tauto.
Qed.

Lemma currencies_fold_row (rows : list Currency.t)
    (d : gmap Z (gmap string pyval)) (c : Currency.t) :
  List.NoDup (map Currency.id rows) -> In c rows ->
  foldl (fun d c => <[Currency.id c := currency_entry c]> d) d rows
    !! Currency.id c
  = Some (currency_entry c).
Proof.
  revert d. induction rows as [|c' rows IH]; intros d Hnd Hc; [destruct Hc|].
  simpl in Hnd. inversion Hnd as [|? ? Hfresh Hnd']; subst.
  destruct Hc as [->|Hc]; simpl.
  - rewrite currencies_fold_other by assumption.
    apply lookup_insert_eq.
  - now apply IH.
Qed.

Lemma currencies_fold_dom (rows : list Currency.t)
    (d : gmap Z (gmap string pyval)) :
  dom (foldl (fun d c => <[Currency.id c := currency_entry c]> d) d rows)
  = dom d ∪ list_to_set (map Currency.id rows).
Proof.
  revert d. induction rows as [|c rows IH]; intros d; simpl.
  - set_solver.
  - rewrite IH, dom_insert_L. set_solver.
Qed.

Lemma currency_entry_keys (c : Currency.t) :
  dom (currency_entry c)
  = ({[ "symbol"; "position"; "digits" ]} : gset string).
Proof.
  unfold currency_entry. rewrite !dom_insert_L, dom_singleton_L. set_solver.
Qed.

(** C8. [get_currencies] returns a dictionary whose keys are the ids of the
    currency records read, and which maps the id of each of them to a
    dictionary with exactly the keys ['symbol'], ['position'] and
    ['digits'], holding the symbol and the position of that currency and
    the list [[69, decimal_places]]. The records of a search have distinct
    ids. *)
Theorem get_currencies_table :
  List.NoDup (map Currency.id currency_read) ->
  dom get_currencies = list_to_set (map Currency.id currency_read)
  /\ forall c : Currency.t,
       In c currency_read ->
       exists d : gmap string pyval,
         get_currencies !! Currency.id c = Some d
         /\ dom d = ({[ "symbol"; "position"; "digits" ]} : gset string)
         /\ d !! "symbol" = Some (Currency.symbol c)
         /\ d !! "position" = Some (Currency.position c)
         /\ d !! "digits" = Some (PList [PInt 69; Currency.decimal_places c]).
Proof.
  intros Hnd. split.
  - unfold get_currencies. rewrite currencies_fold_dom. set_solver.
  - intros c Hc. exists (currency_entry c). split; [|split].
    + unfold get_currencies. now apply currencies_fold_row.
    + apply currency_entry_keys.
    + unfold currency_entry. repeat split; by simplify_map_eq.
Qed.

End Currencies.

(** ** The session bootstrap payload *)

Section SessionInfoProperties.

Context `{Tools} `{Env}.

Lemma set_context_same (s : Session.t) :
  Session.set_context (Session.context s) s = s.
Proof. now destruct s. Qed.

(** The session [session_info] leaves behind, whether it returns or
    raises. *)
Lemma session_info_session (s : Session.t) :
  (session_info s).2 =
  if Session.logged_in s then Session.set_context context_get s else s.
Proof.
  unfold session_info. destruct (Session.logged_in s); [|reflexivity].
  case_bool_decide as Hctx; [reflexivity|].
  simpl. rewrite Hctx. symmetry. apply set_context_same.
Qed.


(** The keys of the menus as [session_info] serialises them. *)
Lemma ordered_menus_keys (menus : list (pykey * menu)) :
  dom (ordered_menus menus) = list_to_set (map (fun kv => str kv.1) menus).
Proof.
  unfold ordered_menus.
  assert (forall d : gmap string menu,
             dom (foldl (fun d kv => <[str kv.1 := kv.2]> d) d menus)
             = dom d ∪ list_to_set (map (fun kv => str kv.1) menus)) as Hfold.
  { induction menus as [|kv menus IH]; intros d; simpl.
    - set_solver.
    - rewrite IH, dom_insert_L. set_solver. }
  rewrite Hfold. set_solver.
Qed.




End SessionInfoProperties.

(** ** Binary content and images *)

Section Content.

Context `{Tools} `{Env}.

(** C6. When [binary_content] reports the status 200, the response of
    [_get_content_common] carries the content under the headers of
    [binary_content] followed by ['Content-Length'], the number of bytes of
    the content; for any other status it is the response of
    [_response_by_status] on the status, headers and content as
    [binary_content] gave them, with no ['Content-Length'] appended. *)
Theorem get_content_common_content_length
    (xmlid : pyval) (model : string) (res_id : pyval) (field : string)
    (unique filename filename_field download mimetype access_token
       token : pyval)
    (status : Z) (headers : list header) (content : list byte) :
  binary_content
    (BinaryContent.mk xmlid model res_id field unique filename
                      filename_field download mimetype None access_token)
  = (status, headers, content) ->
  let response :=
    _get_content_common xmlid model res_id field unique filename
                        filename_field download mimetype access_token token
  in
  (status = 200 ->
   Response.headers response
   = (headers ++ [("Content-Length", PInt (Z.of_nat (length content)))])%list
   /\ In ("Content-Length", PInt (Z.of_nat (length content)))
         (Response.headers response)
   /\ Response.data response = content)
  /\ (status <> 200 ->
      response = _response_by_status status headers content).
Proof.
  intros Hbc response. subst response. unfold _get_content_common.
  rewrite Hbc. split.
  - intros ->. simpl. repeat split.
    apply in_or_app. right. now left.
  - intros Hstatus. apply Z.eqb_neq in Hstatus. now rewrite Hstatus.
Qed.

(** The test that opens [_content_image_get_response]. *)
Lemma status_guard (status : Z) (download : pyval) :
  Z.eqb status 301 || Z.eqb status 304
  || (negb (Z.eqb status 200) && truthy download) = true
  <-> status = 301 \/ status = 304
      \/ (status <> 200 /\ truthy download = true).
Proof.
  rewrite !orb_true_iff, andb_true_iff, negb_true_iff.
  rewrite !Z.eqb_eq, Z.eqb_neq. tauto.
Qed.

(** C10. When [binary_content] reported 301 or 304, or a status other than
    200 while a download was asked for, [_content_image_get_response]
    returns the response of [_response_by_status] on that status, the
    headers and the image as they came: no placeholder takes the place of
    the image, be it empty. *)
Theorem content_image_status_passed_through
    (status : Z) (headers : list header) (image : list byte)
    (model field : string) (download width height crop quality : pyval) :
  status = 301 \/ status = 304
  \/ (status <> 200 /\ truthy download = true) ->
  _content_image_get_response status headers image model field download
                              width height crop quality
  = Ok (_response_by_status status headers image).
Proof.
  intros Hguard. apply status_guard in Hguard.
  unfold _content_image_get_response. now rewrite Hguard.
Qed.

(** Past the opening test, the method is decided by what the [try] block
    gives on the input of [image_process]. *)
Lemma content_image_try_block
    (status : Z) (headers : list header) (image : list byte)
    (model field : string) (download width height crop quality : pyval)
    (source : list byte) (width' height' : pyval) :
  Z.eqb status 301 || Z.eqb status 304
  || (negb (Z.eqb status 200) && truthy download) = false ->
  image_process_input image model field width height
                      source width' height' ->
  _content_image_get_response status headers image model field download
                              width height crop quality
  = Ok match
         w ← int width'; h ← int height'; q ← int quality;
         image_process source (w, h) crop q
       with
       | Raise _ => not_found
       | Ok content =>
           Response.mk (match image with [] => 200 | _ :: _ => status end)
                       (set_safe_image_headers headers content) content
       end.
Proof.
  intros Hguard Hinput. unfold _content_image_get_response.
  rewrite Hguard.
  destruct Hinput as [Himage | p -> Hp Hsize | p w h -> Hp Hsize Hguess].
  - destruct image as [|b image]; [congruence|]. simpl.
    destruct (_ ← int width; _) as [content|e]; reflexivity.
  - rewrite Hp. simpl. rewrite Hsize. simpl.
    destruct (_ ← int width; _) as [content|e]; reflexivity.
  - rewrite Hp. simpl. rewrite Hsize, Hguess. simpl.
    destruct (_ ← int quality; _) as [content|e]; reflexivity.
Qed.

(** Past the opening test the [try] block is reached, unless the image is
    empty and the placeholder file cannot be read: the exception of
    [file_open] then leaves the method. *)
Lemma content_image_reaches_try_block
    (status : Z) (headers : list header) (image : list byte)
    (model field : string) (download width height crop quality : pyval) :
  Z.eqb status 301 || Z.eqb status 304
  || (negb (Z.eqb status 200) && truthy download) = false ->
  (exists (source : list byte) (width' height' : pyval),
      image_process_input image model field width height
                          source width' height')
  \/ (exists e : exn,
         image = []
         /\ _placeholder (if model_in_env model
                          then _get_placeholder_filename model field
                          else None) = Raise e
         /\ _content_image_get_response status headers image model field
                                        download width height crop quality
            = Raise e).
Proof.
  intros Hguard. destruct image as [|b image].
  - destruct (_placeholder (if model_in_env model
                            then _get_placeholder_filename model field
                            else None)) as [p|e] eqn:Hp.
    + left. destruct (truthy (py_or width height)) eqn:Hsize.
      * exists p, width, height. now apply input_placeholder.
      * destruct (image_guess_size_from_field_name field) as [w h] eqn:Hg.
        exists p, (PInt w), (PInt h).
        now apply input_placeholder_guessed.
    + right. exists e. repeat split.
      unfold _content_image_get_response. rewrite Hguard, Hp. reflexivity.
  - left. exists (b :: image), width, height. now apply input_image.
Qed.

(** C5. When [image_process] raises on the image (or the placeholder) and
    the sizes it is called with, [_content_image_get_response] returns the
    generic not-found response; the exception does not leave the method. *)
Theorem content_image_process_error_not_found
    (status : Z) (headers : list header) (image : list byte)
    (model field : string) (download width height crop quality : pyval)
    (source : list byte) (width' height' : pyval) (w h q : Z) (e : exn) :
  ~ (status = 301 \/ status = 304
     \/ (status <> 200 /\ truthy download = true)) ->
  image_process_input image model field width height
                      source width' height' ->
  int width' = Ok w -> int height' = Ok h -> int quality = Ok q ->
  image_process source (w, h) crop q = Raise e ->
  _content_image_get_response status headers image model field download
                              width height crop quality
  = Ok not_found.
Proof.
  intros Hguard Hinput Hw Hh Hq Hraise.
  rewrite <- status_guard in Hguard. apply not_true_is_false in Hguard.
  rewrite (content_image_try_block _ _ _ _ _ _ _ _ _ _ _ _ _ Hguard Hinput).
  rewrite Hw, Hh, Hq. simpl. now rewrite Hraise.
Qed.

(** The file [_placeholder] reads: the one named, the static placeholder
    when no name is given. *)
Lemma placeholder_file (image : option string) :
  _placeholder image
  = file_open
      (match image with
       | Some name =>
           if String.eqb name "" then "web/static/img/placeholder.png"
           else name
       | None => "web/static/img/placeholder.png"
       end)
      [".png"; ".jpg"].
Proof. reflexivity. Qed.

(** C4, amended. For an empty image, past the opening test and once the
    placeholder file is read (the file the model names for the field, the
    static [web/static/img/placeholder.png] when the model is unknown or
    names none), the response depends on the [try] block, that is the
    conversions of the sizes and of the quality followed by
    [image_process] on the placeholder: when it raises nothing, the
    response carries the processed placeholder and has the status 200,
    whatever status came in; when it raises, the response is the generic
    not-found one. *)
Theorem content_image_placeholder
    (status : Z) (headers : list header)
    (model field : string) (download width height crop quality : pyval)
    (placeholder : list byte) (width' height' : pyval) :
  ~ (status = 301 \/ status = 304
     \/ (status <> 200 /\ truthy download = true)) ->
  image_process_input [] model field width height
                      placeholder width' height' ->
  _placeholder (if model_in_env model
                then _get_placeholder_filename model field
                else None) = Ok placeholder
  /\ _content_image_get_response status headers [] model field download
                                 width height crop quality
     = Ok match
            w ← int width'; h ← int height'; q ← int quality;
            image_process placeholder (w, h) crop q
          with
          | Ok content =>
              Response.mk 200 (set_safe_image_headers headers content)
                          content
          | Raise _ => not_found
          end.
Proof.
  intros Hguard Hinput.
  rewrite <- status_guard in Hguard. apply not_true_is_false in Hguard.
  split.
  - inversion Hinput; subst; congruence.
  - rewrite (content_image_try_block _ _ _ _ _ _ _ _ _ _ _ _ _ Hguard Hinput).
    destruct (_ ← int width'; _); reflexivity.
Qed.

End Content.

(** * Further properties *)

(** ** More on the debug modes *)

Lemma length_append (a b : string) :
  String.length (a ++ b) = (String.length a + String.length b)%nat.
Proof. induction a as [|c a IH]; simpl; [reflexivity | now rewrite IH]. Qed.

Section DebugMore.

Context `{Tools}.

Lemma debug_mode_fixes_allowed (mode : string) :
  In mode ALLOWED_DEBUG_MODES -> debug_mode mode = mode.
Proof.
  intros Hin. unfold debug_mode.
  apply str_in_In in Hin. now rewrite Hin.
Qed.

Lemma map_debug_mode_fixes_allowed (modes : list string) :
  Forall (fun mode => In mode ALLOWED_DEBUG_MODES) modes ->
  map debug_mode modes = modes.
Proof.
  induction 1 as [|m ms Hm _ IH]; cbn [map]; [reflexivity|].
  now rewrite IH, debug_mode_fixes_allowed.
Qed.

Lemma set_debug_twice (d d' : string) (s : Session.t) :
  Session.set_debug d (Session.set_debug d' s) = Session.set_debug d s.
Proof. reflexivity. Qed.

(** The components stored for a parameter [d]. *)
Lemma handle_debug_components (args : MultiDict) (session : Session.t)
    (d : string) :
  args_get "debug" args = Some d ->
  split "," (Session.debug (_handle_debug args session))
  = map debug_mode (split "," d).
Proof.
  intros Hd. rewrite (handle_debug_present _ _ _ Hd). simpl.
  apply split_join.
  - pose proof (split_not_nil "," d) as Hnil.
    destruct (split "," d); [congruence | discriminate].
  - eapply Forall_impl; [apply map_debug_mode_allowed|].
    apply allowed_no_comma.
Qed.

(** Handling the debug parameter is idempotent: a request that sends back
    the debug string a former request left in the session leaves the
    session as it is. *)
Theorem handle_debug_idempotent
    (args args' : MultiDict) (session : Session.t) (d : string) :
  args_get "debug" args = Some d ->
  args_get "debug" args'
  = Some (Session.debug (_handle_debug args session)) ->
  _handle_debug args' (_handle_debug args session)
  = _handle_debug args session.
Proof.
  intros Hd Hd'.
  rewrite (handle_debug_present args' _ _ Hd').
  rewrite (handle_debug_components _ _ _ Hd).
  rewrite map_debug_mode_fixes_allowed by apply map_debug_mode_allowed.
  rewrite (handle_debug_present _ _ _ Hd). reflexivity.
Qed.

(** A parameter made of allowed modes only is stored as it is, whatever
    [str2bool] says of them: ['0'], for one, is not such a mode, but
    ['assets,tests'] and the empty parameter are. *)
Theorem handle_debug_allowed_verbatim
    (args : MultiDict) (session : Session.t) (d : string) :
  args_get "debug" args = Some d ->
  Forall (fun mode => In mode ALLOWED_DEBUG_MODES) (split "," d) ->
  Session.debug (_handle_debug args session) = d.
Proof.
  intros Hd Hall. rewrite (handle_debug_present _ _ _ Hd). simpl.
  rewrite map_debug_mode_fixes_allowed by assumption.
  apply (join_split ",").
Qed.

(** The stored debug string has as many comma-separated components as the
    parameter: a mode that is switched off leaves an empty component
    behind, it is not dropped. *)
Theorem handle_debug_component_count
    (args : MultiDict) (session : Session.t) (d : string) :
  args_get "debug" args = Some d ->
  length (split "," (Session.debug (_handle_debug args session)))
  = length (split "," d).
Proof.
  intros Hd. rewrite (handle_debug_components _ _ _ Hd).
  apply List.length_map.
Qed.

Lemma debug_mode_length (mode : string) :
  (String.length (debug_mode mode) <= String.length mode)%nat.
Proof.
  unfold debug_mode.
  destruct (str_in mode ALLOWED_DEBUG_MODES) eqn:Hin; [lia|].
  destruct mode as [|c mode]; [discriminate|].
  destruct (str2bool _ _); simpl; lia.
Qed.

Lemma join_map_debug_mode_length (modes : list string) :
  (String.length (join "," (map debug_mode modes))
   <= String.length (join "," modes))%nat.
Proof.
  induction modes as [|m ms IH]; [simpl; lia|].
  pose proof (debug_mode_length m) as Hm.
  destruct ms as [|m' ms]; [exact Hm|].
  change (join "," (map debug_mode (m :: m' :: ms)))
    with (debug_mode m ++ "," ++ join "," (map debug_mode (m' :: ms))).
  change (join "," (m :: m' :: ms)) with (m ++ "," ++ join "," (m' :: ms)).
  rewrite !length_append. lia.
Qed.

(** The stored debug string is never longer than the parameter sent. *)
Theorem handle_debug_never_longer
    (args : MultiDict) (session : Session.t) (d : string) :
  args_get "debug" args = Some d ->
  (String.length (Session.debug (_handle_debug args session))
   <= String.length d)%nat.
Proof.
  intros Hd. rewrite (handle_debug_present _ _ _ Hd). simpl.
  rewrite <- (join_split "," d) at 2.
  apply join_map_debug_mode_length.
Qed.

End DebugMore.

Section PreDispatch.

Context `{Tools} `{Host}.

(** [_pre_dispatch] handles the debug parameter only once the base method
    returned. When the base method raises, the exception leaves
    [_pre_dispatch] and the session is the one the base method left, with
    its debug string untouched by the query; when it returns,
    [_pre_dispatch] returns too and, for a query with a [debug] parameter,
    the session is the one the base method left but for its debug string,
    all of whose components are allowed modes. *)
Theorem pre_dispatch_debug
    (r : rule) (args : route_args) (query : MultiDict) (session : Session.t) :
  match super_pre_dispatch r args session with
  | (Raise e, session') =>
      _pre_dispatch r args query session = (Raise e, session')
  | (Ok _, session') =>
      (_pre_dispatch r args query session).1 = Ok tt
      /\ forall d : string,
           args_get "debug" query = Some d ->
           exists stored : string,
             (_pre_dispatch r args query session).2
             = Session.set_debug stored session'
             /\ Forall (fun mode => In mode ALLOWED_DEBUG_MODES)
                       (split "," stored)
  end.
Proof.
  unfold _pre_dispatch.
  destruct (super_pre_dispatch r args session) as [[[]|e] session'];
    [|reflexivity].
  split; [reflexivity|]. intros d Hd. simpl.
  exists (Session.debug (_handle_debug query session')). split.
  - rewrite (handle_debug_present _ _ _ Hd). reflexivity.
  - rewrite (handle_debug_components _ _ _ Hd).
    apply map_debug_mode_allowed.
Qed.

End PreDispatch.


(** ** More on the session bootstrap payload *)

(** Case analysis on the tests and the conversions of [session_info]. *)
Ltac session_info_cases s :=
  unfold session_info;
  destruct (Session.logged_in s) eqn:?;
  [case_bool_decide|];
  cbn [fst snd];
  destruct (int (get_param "web.max_file_upload_size" _)) eqn:?;
  cbn [mbind result_bind];
  try destruct (int (get_param "web.active_ids_limit" _)) eqn:?;
  cbn [mbind result_bind];
  try destruct (getitem _ "lang") eqn:?;
  cbn [mbind result_bind mret result_ret];
  try destruct (User.has_group env_user "base.group_user") eqn:?;
  cbn [mbind result_bind mret result_ret].

Section SessionInfoMore.

Context `{Tools} `{Env}.

Lemma logged_in_set_context (c : gmap string pyval) (s : Session.t) :
  Session.logged_in (Session.set_context c s) = Session.logged_in s.
Proof. reflexivity. Qed.

(** [session_info] is idempotent: called again on the session it left, it
    gives the same payload (or raises the same exception) and leaves that
    session as it is. *)
Theorem session_info_idempotent (s : Session.t) :
  session_info (session_info s).2 = session_info s.
Proof.
  rewrite session_info_session.
  destruct (Session.logged_in s) eqn:Hin; [|reflexivity].
  unfold session_info. rewrite logged_in_set_context, Hin.
  rewrite (bool_decide_eq_false_2
             (context_get
              ≠ Session.context (Session.set_context context_get s)))
    by (simpl; congruence).
  case_bool_decide as Hctx; [reflexivity|].
  replace (Session.set_context context_get s) with s; [reflexivity|].
  rewrite Hctx. symmetry. apply set_context_same.
Qed.


(** For a visitor (no user logged in) the session is left as it was, the
    language of the context is not looked up, so that no [KeyError] is
    raised, and a payload that is returned discloses neither a context, nor
    administrator rights, nor a company, nor a partner, nor a hash of the
    translations. *)
Theorem session_info_visitor (s : Session.t) :
  Session.logged_in s = false ->
  (session_info s).2 = s
  /\ (forall key : string, (session_info s).1 <> Raise (KeyError key))
  /\ forall info : SessionInfo.t,
       (session_info s).1 = Ok info ->
       SessionInfo.user_context info = ∅
       /\ SessionInfo.is_system info = false
       /\ SessionInfo.is_admin info = false
       /\ SessionInfo.company_id info = PNone
       /\ SessionInfo.partner_id info = PNone
       /\ SessionInfo.cache_hashes info !! "translations" = Some PNone.
Proof.
  intros Hin. split; [|split].
  - rewrite session_info_session. now rewrite Hin.
  - intros key. unfold session_info. rewrite Hin. cbn [fst snd].
    destruct (get_param "web.max_file_upload_size" _) as [|b|z|str|l];
      simpl; try discriminate;
      try (destruct (int_of_str str); simpl; try discriminate);
      (destruct (get_param "web.active_ids_limit" _) as [|b'|z'|str'|l'];
       simpl; try discriminate;
       try (destruct (int_of_str str'); simpl; try discriminate));
      destruct (User.has_group env_user "base.group_user"); discriminate.
  - intros info. revert Hin. session_info_cases s; try discriminate;
      intros _ [= <-]; simpl; repeat split;
      try (destruct (User.partner_id env_user); reflexivity);
      try (apply lookup_union_Some_raw; right; split; [|apply lookup_insert_eq]);
      try apply lookup_insert_eq;
      by simplify_map_eq.
Qed.

(** What is only useful to the web client is only given to internal users:
    for a user outside [base.group_user] the cache hashes are those of the
    translations alone and the payload has none of the keys
    ['user_companies'], ['show_effect'], ['display_switch_company_menu'];
    for a user of the group the hashes of the menus and of the templates
    come with them, and the three keys are there. *)
Theorem session_info_internal_only (s : Session.t) (info : SessionInfo.t) :
  (session_info s).1 = Ok info ->
  if User.has_group env_user "base.group_user" then
    dom (SessionInfo.cache_hashes info)
    = ({[ "translations"; "load_menus"; "qweb" ]} : gset string)
    /\ is_Some (SessionInfo.user_companies info)
    /\ SessionInfo.show_effect info = Some true
    /\ is_Some (SessionInfo.display_switch_company_menu info)
  else
    dom (SessionInfo.cache_hashes info)
    = ({[ "translations" ]} : gset string)
    /\ SessionInfo.user_companies info = None
    /\ SessionInfo.show_effect info = None
    /\ SessionInfo.display_switch_company_menu info = None.
Proof.
  session_info_cases s; try discriminate; intros [= <-]; simpl;
    repeat split; eauto;
    rewrite ?dom_union_L, ?dom_insert_L, ?dom_singleton_L; set_solver.
Qed.

(** The exceptions of [session_info], in the order of the source: that of
    the conversion of the upload size, else that of the conversion of the
    limit of active ids, else, for a logged-in user whose context has no
    language, [KeyError('lang')]; and no other. *)
Theorem session_info_exceptions (s : Session.t) (e : exn) :
  (session_info s).1 = Raise e
  <-> int (get_param "web.max_file_upload_size"
                     (PInt (128 * 1024 * 1024))) = Raise e
      \/ (is_ok (int (get_param "web.max_file_upload_size"
                                (PInt (128 * 1024 * 1024)))) = true
          /\ int (get_param "web.active_ids_limit" (PStr "20000")) = Raise e)
      \/ (is_ok (int (get_param "web.max_file_upload_size"
                                (PInt (128 * 1024 * 1024)))) = true
          /\ is_ok (int (get_param "web.active_ids_limit"
                                   (PStr "20000"))) = true
          /\ Session.logged_in s = true
          /\ context_get !! "lang" = None
          /\ e = KeyError "lang").
Proof.
  assert (forall c : gmap string pyval,
             (exists v, getitem c "lang" = Ok v /\ c !! "lang" = Some v)
             \/ (getitem c "lang" = Raise (KeyError "lang")
                 /\ c !! "lang" = None)) as Hlang.
  { intros c. unfold getitem. destruct (c !! "lang"); eauto. }
  unfold session_info.
  destruct (Session.logged_in s) eqn:Hin; [case_bool_decide as Hctx|];
    cbn [fst snd];
    destruct (int (get_param "web.max_file_upload_size" _)) as [m|e1];
    cbn [mbind result_bind is_ok];
    try (split; [intros [= ->]; now left
                | intros [[= ->]|[[[=] _]|[[=] _]]]; reflexivity]);
    destruct (int (get_param "web.active_ids_limit" _)) as [l|e2];
    cbn [mbind result_bind is_ok];
    try (split; [intros [= ->]; right; left; now split
                | intros [[=]|[[_ [= ->]]|(_ & [=] & _)]]; reflexivity]).
  - destruct (Hlang context_get) as [(v & Hget & Hl)|[Hget Hl]];
      simpl; rewrite Hget; cbn [mbind result_bind mret result_ret].
    + destruct (User.has_group env_user "base.group_user");
        (split; [discriminate|]);
        intros [[=]|[[_ [=]]|(_ & _ & _ & Hnone & _)]]; congruence.
    + split.
      * intros [= <-]. right. right. repeat split. exact Hl.
      * intros [[=]|[[_ [=]]|(_ & _ & _ & _ & ->)]]. reflexivity.
  - rewrite <- Hctx.
    destruct (Hlang context_get) as [(v & Hget & Hl)|[Hget Hl]];
      rewrite Hget; cbn [mbind result_bind mret result_ret].
    + destruct (User.has_group env_user "base.group_user");
        (split; [discriminate|]);
        intros [[=]|[[_ [=]]|(_ & _ & _ & Hnone & _)]]; congruence.
    + split.
      * intros [= <-]. right. right. repeat split. exact Hl.
      * intros [[=]|[[_ [=]]|(_ & _ & _ & _ & ->)]]. reflexivity.
  - cbn [mbind result_bind mret result_ret].
    destruct (User.has_group env_user "base.group_user");
      (split; [discriminate|]);
      intros [[=]|[[_ [=]]|(_ & _ & [=] & _)]].
Qed.

Lemma companies_fold_dom (companies : list Company.t)
    (d : gmap Z (gmap string pyval)) :
  dom (foldl
         (fun d comp =>
            <[Company.id comp :=
                {[ "id" := PInt (Company.id comp);
                   "name" := Company.name comp;
                   "sequence" := Company.sequence comp ]}]> d)
         d companies)
  = dom d ∪ list_to_set (map Company.id companies).
Proof.
  revert d. induction companies as [|c cs IH]; intros d; simpl.
  - set_solver.
  - rewrite IH, dom_insert_L. set_solver.
Qed.

Lemma companies_fold_entries (companies : list Company.t)
    (d : gmap Z (gmap string pyval))
    (P : Z -> gmap string pyval -> Prop) :
  (forall k e, d !! k = Some e -> P k e) ->
  (forall comp, In comp companies ->
                P (Company.id comp)
                  {[ "id" := PInt (Company.id comp);
                     "name" := Company.name comp;
                     "sequence" := Company.sequence comp ]}) ->
  forall k e,
    foldl
      (fun d comp =>
         <[Company.id comp :=
             {[ "id" := PInt (Company.id comp);
                "name" := Company.name comp;
                "sequence" := Company.sequence comp ]}]> d)
      d companies !! k = Some e ->
    P k e.
Proof.
  revert d. induction companies as [|c cs IH]; intros d Hd Hcs k e; simpl.
  - apply Hd.
  - apply IH.
    + intros k' e'. rewrite lookup_insert.
      case_decide as Hk; [|apply Hd].
      intros [= <-]. subst k'. apply Hcs. now left.
    + intros comp Hcomp. apply Hcs. now right.
Qed.

(** The companies a payload lists for an internal user are those of the
    user: the keys of ['allowed_companies'] are the ids of
    [user.company_ids], the entry under an id has exactly the keys ['id'],
    ['name'] and ['sequence'], and its ['id'] is the key it stands under,
    also when a company is listed twice. *)
Theorem session_info_allowed_companies (s : Session.t) (info : SessionInfo.t) :
  User.has_group env_user "base.group_user" = true ->
  (session_info s).1 = Ok info ->
  exists companies : UserCompanies.t,
    SessionInfo.user_companies info = Some companies
    /\ UserCompanies.current_company companies
       = record_id (User.company_id env_user)
    /\ dom (UserCompanies.allowed_companies companies)
       = list_to_set (map Company.id (User.company_ids env_user))
    /\ forall (k : Z) (entry : gmap string pyval),
         UserCompanies.allowed_companies companies !! k = Some entry ->
         entry !! "id" = Some (PInt k)
         /\ dom entry = ({[ "id"; "name"; "sequence" ]} : gset string).
Proof.
  intros Hgroup Hok.
  exists (UserCompanies.mk (record_id (User.company_id env_user))
                           (allowed_companies (User.company_ids env_user))).
  split; [|split; [reflexivity|split]].
  - revert Hok. session_info_cases s; try discriminate;
      intros [= <-]; reflexivity.
  - simpl. unfold allowed_companies. rewrite companies_fold_dom. set_solver.
  - simpl. unfold allowed_companies.
    apply companies_fold_entries.
    + intros k e. rewrite lookup_empty. discriminate.
    + intros comp _. split; [by simplify_map_eq|].
      rewrite !dom_insert_L, dom_singleton_L. set_solver.
Qed.

End SessionInfoMore.

Section CurrenciesMore.

Context `{Env}.

Lemma currencies_fold_sound (rows : list Currency.t)
    (d : gmap Z (gmap string pyval)) (k : Z) (e : gmap string pyval) :
  foldl (fun d c => <[Currency.id c := currency_entry c]> d) d rows !! k
  = Some e ->
  d !! k = Some e
  \/ exists c, In c rows /\ Currency.id c = k /\ e = currency_entry c.
Proof.
  revert d. induction rows as [|c rows IH]; intros d; simpl; [now left|].
  intros Hk. destruct (IH _ Hk) as [Hd|(c' & Hin & Hid & He)].
  - rewrite lookup_insert in Hd. case_decide as Hc; [|now left].
    right. exists c. injection Hd as <-. auto.
  - right. exists c'. auto.
Qed.

(** The currency table holds nothing but the currencies read: every entry
    stands under the id of a row read and is built from that row, so that
    its digits are the pair of 69 and the decimal places of the row. No
    assumption on the ids is needed. *)
Theorem get_currencies_sound (k : Z) (e : gmap string pyval) :
  get_currencies !! k = Some e ->
  exists c : Currency.t,
    In c currency_read
    /\ Currency.id c = k
    /\ e !! "symbol" = Some (Currency.symbol c)
    /\ e !! "position" = Some (Currency.position c)
    /\ e !! "digits" = Some (PList [PInt 69; Currency.decimal_places c])
    /\ dom e = ({[ "symbol"; "position"; "digits" ]} : gset string).
Proof.
  unfold get_currencies. intros Hk.
  destruct (currencies_fold_sound _ _ _ _ Hk) as [Hd|(c & Hin & Hid & ->)].
  - rewrite lookup_empty in Hd. discriminate.
  - exists c. repeat split; try assumption;
      try (unfold currency_entry; by simplify_map_eq).
Qed.

End CurrenciesMore.


(** ** More on binary content and images *)

Section ContentMore.

Context `{Tools} `{Env}.

(** The only exception that leaves [_content_image_get_response] is the one
    raised while the placeholder file is read for an empty image: those of
    the conversions and of [image_process] are all caught, and an image
    that is there is never answered by an exception. *)
Theorem content_image_raises_only_for_placeholder
    (status : Z) (headers : list header) (image : list byte)
    (model field : string) (download width height crop quality : pyval)
    (e : exn) :
  _content_image_get_response status headers image model field download
                              width height crop quality
  = Raise e
  <-> ~ (status = 301 \/ status = 304
         \/ (status <> 200 /\ truthy download = true))
      /\ image = []
      /\ _placeholder (if model_in_env model
                       then _get_placeholder_filename model field
                       else None) = Raise e.
Proof.
  rewrite <- status_guard.
  destruct (Z.eqb status 301 || Z.eqb status 304
            || (negb (Z.eqb status 200) && truthy download)) eqn:Hguard.
  - unfold _content_image_get_response. rewrite Hguard. split.
    + discriminate.
    + intros [Hno _]. now destruct Hno.
  - destruct (content_image_reaches_try_block
                status headers image model field download width height
                crop quality Hguard)
      as [(source & w' & h' & Hinput) | (e' & -> & Hp & Hraise)].
    + rewrite (content_image_try_block _ _ _ _ _ _ _ _ _ _ _ _ _
                 Hguard Hinput).
      split; [discriminate|]. intros (_ & -> & Hp).
      inversion Hinput; subst; congruence.
    + rewrite Hraise, Hp. split.
      * intros [= ->]. repeat split. discriminate.
      * now intros (_ & _ & [= ->]).
Qed.

(** On the placeholder path and with no header from [binary_content], the
    answer of [_content_image_get_response] is the very response
    [_placeholder_image_get_response] builds for the processed
    placeholder. *)
Theorem content_image_placeholder_response
    (status : Z) (model field : string)
    (download width height crop quality : pyval)
    (placeholder content : list byte) (width' height' : pyval) :
  ~ (status = 301 \/ status = 304
     \/ (status <> 200 /\ truthy download = true)) ->
  image_process_input [] model field width height
                      placeholder width' height' ->
  (w ← int width'; h ← int height'; q ← int quality;
   image_process placeholder (w, h) crop q) = Ok content ->
  _content_image_get_response status [] [] model field download
                              width height crop quality
  = Ok (_placeholder_image_get_response content).
Proof.
  intros Hguard Hinput Htry.
  rewrite <- status_guard in Hguard. apply not_true_is_false in Hguard.
  rewrite (content_image_try_block _ _ _ _ _ _ _ _ _ _ _ _ _ Hguard Hinput).
  now rewrite Htry.
Qed.

(** [_content_image] raises only when [binary_content] found no image and
    the placeholder file cannot be read; it asks [binary_content] for
    [image/png] as the default type. *)
Theorem content_image_raises_only_for_placeholder_file
    (xmlid : pyval) (model : string) (res_id : pyval) (field : string)
    (filename_field unique filename mimetype download width height crop
       quality access_token : pyval) (e : exn) :
  _content_image xmlid model res_id field filename_field unique filename
                 mimetype download width height crop quality access_token
  = Raise e ->
  exists (status : Z) (headers : list header),
    binary_content
      (BinaryContent.mk xmlid model res_id field unique filename
                        filename_field download mimetype (Some "image/png")
                        access_token)
    = (status, headers, [])
    /\ _placeholder (if model_in_env model
                     then _get_placeholder_filename model field
                     else None) = Raise e.
Proof.
  unfold _content_image.
  destruct (binary_content _) as [[status headers] image] eqn:Hbc.
  intros Hraise.
  apply content_image_raises_only_for_placeholder in Hraise.
  destruct Hraise as (_ & -> & Hp). eauto.
Qed.

End ContentMore.

(** ** The other methods *)

Lemma startswith_spec (p s : string) :
  startswith p s = true <-> exists post : string, s = p ++ post.
Proof.
  revert s. induction p as [|a p IH]; intros s; simpl.
  - split; eauto.
  - destruct s as [|b s].
    + split; [discriminate | intros [post [=]]].
    + rewrite andb_true_iff, Ascii.eqb_eq, IH. split.
      * intros [-> [post ->]]. eauto.
      * intros [post [= -> ->]]. eauto.
Qed.

(** [contains] is the test of occurrence. *)
Lemma contains_spec (sub s : string) :
  contains sub s = true <-> exists pre post : string, s = pre ++ sub ++ post.
Proof.
  induction s as [|b s IH].
  - simpl. rewrite orb_false_r, startswith_spec. split.
    + intros [post Hs]. exists "", post. exact Hs.
    + intros (pre & post & Hs). destruct pre as [|c pre]; [|discriminate].
      eauto.
  - cbn [contains]. rewrite orb_true_iff, startswith_spec, IH. split.
    + intros [[post Hs] | (pre & post & ->)].
      * exists "", post. exact Hs.
      * exists (String b pre), post. reflexivity.
    + intros (pre & post & Hs). destruct pre as [|c pre].
      * left. eauto.
      * right. injection Hs as -> ->. eauto.
Qed.

Section Rest.

Context `{Tools} `{Env} `{Host}.

(** [is_a_bot] holds exactly of the user agents whose lower-case form has
    one of the eleven marks of [bots] somewhere in it. *)
Theorem is_a_bot_occurrence (user_agent_string : string) :
  is_a_bot user_agent_string = true
  <-> exists bot pre post : string,
        In bot bots /\ lower user_agent_string = pre ++ bot ++ post.
Proof.
  unfold is_a_bot. rewrite existsb_exists. split.
  - intros (bot & Hbot & Hin). apply contains_spec in Hin.
    destruct Hin as (pre & post & Hs). eauto 6.
  - intros (bot & pre & post & Hbot & Hs). exists bot. split; [exact Hbot|].
    apply contains_spec. eauto.
Qed.


(** [get_frontend_session_info] tells a visitor nothing of the user or of
    the server: no rights, no user id, no version. For a logged-in user it
    gives the id of the user and the version of the server, and whenever
    [session_info] returns a payload the two agree on the rights, on the
    profiling attributes and on the version. It reads the session as
    [session_info] leaves it the way it reads it before. *)
Theorem frontend_session_info_discloses (s : Session.t) :
  let frontend := get_frontend_session_info s in
  (Session.logged_in s = false ->
   FrontendSessionInfo.is_admin frontend = false
   /\ FrontendSessionInfo.is_system frontend = false
   /\ FrontendSessionInfo.is_website_user frontend = false
   /\ FrontendSessionInfo.user_id frontend = PBool false
   /\ FrontendSessionInfo.server_version frontend = None
   /\ FrontendSessionInfo.server_version_info frontend = None)
  /\ (Session.logged_in s = true ->
      FrontendSessionInfo.user_id frontend = PInt user_id
      /\ FrontendSessionInfo.server_version frontend
         = Some (dict_get exp_version "server_version")
      /\ FrontendSessionInfo.server_version_info frontend
         = Some (dict_get exp_version "server_version_info"))
  /\ (forall info : SessionInfo.t,
        (session_info s).1 = Ok info ->
        FrontendSessionInfo.is_admin frontend = SessionInfo.is_admin info
        /\ FrontendSessionInfo.is_system frontend = SessionInfo.is_system info
        /\ FrontendSessionInfo.profile_session frontend
           = SessionInfo.profile_session info
        /\ FrontendSessionInfo.profile_collectors frontend
           = SessionInfo.profile_collectors info
        /\ FrontendSessionInfo.profile_params frontend
           = SessionInfo.profile_params info
        /\ (Session.logged_in s = true ->
            FrontendSessionInfo.server_version frontend
            = Some (SessionInfo.server_version info)
            /\ FrontendSessionInfo.server_version_info frontend
               = Some (SessionInfo.server_version_info info)))
  /\ get_frontend_session_info (session_info s).2 = frontend.
Proof.
  intros frontend. subst frontend. split; [|split; [|split]].
  - intros Hin. unfold get_frontend_session_info. rewrite Hin.
    repeat split.
  - intros Hin. unfold get_frontend_session_info. rewrite Hin.
    repeat split.
  - intros info. unfold get_frontend_session_info.
    session_info_cases s; try discriminate;
      intros [= <-]; repeat split; discriminate.
  - rewrite session_info_session.
    destruct (Session.logged_in s); reflexivity.
Qed.

End Rest.

(** * The properties on the sample request *)

#[local] Existing Instance Sample.tools.
#[local] Existing Instance Sample.env.

Example sha512_abc :
  SHA512.hexdigest (encode "abc") =
  "ddaf35a193617abacc417349ae20413112e6fa4e89a97ea20a9eeee64b55d39a2192992a274fc1a836ba3c23a3feebbd454d4423643ce80e2a9ac94fa54ca49f".
Proof. vm_compute. reflexivity. Qed.

Example split_commas : split "," ",a,,b," = [""; "a"; ""; "b"; ""].
Proof. reflexivity. Qed.

Example handle_debug_modes :
  Session.debug
    (_handle_debug [("debug", "tests,assets,on,OFF,foo,,1")]
                   Sample.public_session)
  = "tests,assets,1,,1,,1".
Proof. reflexivity. Qed.

Example handle_debug_first_value :
  Session.debug
    (_handle_debug [("menu_id", "5"); ("debug", "0"); ("debug", "assets")]
                   Sample.public_session)
  = "".
Proof. reflexivity. Qed.

Example sample_menu_json :
  json_dumps (ordered_menus (load_menus ""))
  = "{" ++ Sample.quote "1" ++ ": [], " ++ Sample.quote "root" ++ ": [1]}".
Proof. vm_compute. reflexivity. Qed.

Example sample_load_menus_hash :
  exists info : SessionInfo.t,
    (session_info Sample.fresh_session).1 = Ok info
    /\ SessionInfo.cache_hashes info
       = {[ "load_menus" :=
              PStr "c72ad463cbf2f1d17fb0b4913ab2165b1096e9cbf72b0b58b76431852b578272";
            "qweb" := PStr "0";
            "translations" := PStr "0" ]}.
Proof. eexists. split; [reflexivity|]. vm_compute. reflexivity. Qed.


Lemma handle_debug_components_allowed_witness :
  Forall (fun mode => In mode ALLOWED_DEBUG_MODES)
         (split ","
            (Session.debug
               (_handle_debug [("debug", "tests,yes,nope,")]
                              Sample.public_session))).
Proof.
  apply (handle_debug_components_allowed _ _ "tests,yes,nope,").
  reflexivity.
Defined.


Lemma get_currencies_table_witness :
  dom get_currencies = list_to_set (map Currency.id currency_read)
  /\ forall c : Currency.t,
       In c currency_read ->
       exists d : gmap string pyval,
         get_currencies !! Currency.id c = Some d
         /\ dom d = ({[ "symbol"; "position"; "digits" ]} : gset string)
         /\ d !! "symbol" = Some (Currency.symbol c)
         /\ d !! "position" = Some (Currency.position c)
         /\ d !! "digits" = Some (PList [PInt 69; Currency.decimal_places c]).
Proof.
  apply get_currencies_table. simpl.
  constructor; [simpl; intros [Heq|[]]; discriminate|].
  constructor; [simpl; tauto|]. constructor.
Defined.



Lemma get_content_common_content_length_witness :
  let response :=
    _get_content_common PNone "ir.attachment" (PInt 7) "datas" PNone PNone
                        (PStr "name") PNone PNone PNone PNone in
  (200 = 200 ->
   Response.headers response
   = ([("Content-Type", PStr "text/plain")]
        ++ [("Content-Length", PInt (Z.of_nat (length (encode "hello"))))])%list
   /\ In ("Content-Length", PInt (Z.of_nat (length (encode "hello"))))
         (Response.headers response)
   /\ Response.data response = encode "hello")
  /\ (200 <> 200 ->
      response
      = _response_by_status 200 [("Content-Type", PStr "text/plain")]
                            (encode "hello")).
Proof.
  exact (get_content_common_content_length
           PNone "ir.attachment" (PInt 7) "datas" PNone PNone
           (PStr "name") PNone PNone PNone PNone
           200 [("Content-Type", PStr "text/plain")] (encode "hello")
           eq_refl).
Defined.

Lemma content_image_status_passed_through_witness :
  _content_image_get_response 304 [("ETag", PStr "abc")] [] "res.partner"
                              "image_128" PNone (PInt 0) (PInt 0)
                              (PBool false) (PInt 0)
  = Ok (_response_by_status 304 [("ETag", PStr "abc")] []).
Proof.
  apply content_image_status_passed_through. right. left. reflexivity.
Defined.

Lemma content_image_process_error_not_found_witness :
  _content_image_get_response 200 [] (encode "not an image")
                              "ir.attachment" "raw" PNone (PStr "64")
                              (PInt 0) (PBool false) (PInt 0)
  = Ok not_found.
Proof.
  apply (content_image_process_error_not_found
           200 [] (encode "not an image") "ir.attachment" "raw" PNone
           (PStr "64") (PInt 0) (PBool false) (PInt 0)
           (encode "not an image") (PStr "64") (PInt 0) 64 0 0
           (Exception "This file could not be decoded as an image file.")).
  - intros [Hs|[Hs|[Hs _]]]; [discriminate | discriminate | now apply Hs].
  - apply input_image. discriminate.
  - reflexivity.
  - reflexivity.
  - reflexivity.
  - reflexivity.
Defined.

Lemma content_image_placeholder_witness :
  _placeholder (if model_in_env "ir.attachment"
                then _get_placeholder_filename "ir.attachment" "raw"
                else None) = Ok (encode "placeholder")
  /\ _content_image_get_response 404 [] [] "ir.attachment" "raw" PNone
                                 (PInt 0) (PInt 0) (PBool false) (PInt 0)
     = Ok match
            w ← int (PInt 0); h ← int (PInt 0); q ← int (PInt 0);
            image_process (encode "placeholder") (w, h) (PBool false) q
          with
          | Ok content =>
              Response.mk 200 (set_safe_image_headers [] content) content
          | Raise _ => not_found
          end.
Proof.
  apply (content_image_placeholder
           404 [] "ir.attachment" "raw" PNone (PInt 0) (PInt 0)
           (PBool false) (PInt 0) (encode "placeholder")
           (PInt 0) (PInt 0)).
  - intros [Hs|[Hs|[_ Hd]]]; discriminate.
  - apply (input_placeholder_guessed _ _ _ _ _ _ 0 0); reflexivity.
Defined.

(** C4, as stated, fails: no record, hence no image and the status 404, no
    download asked for, and a width that is not a number. The placeholder
    is read, [int('abc')] raises in the [try] block, and the answer is the
    not-found response, whose status is 404. *)
Lemma content_image_placeholder_not_found :
  binary_content
    (BinaryContent.mk PNone "ir.attachment" (PInt 8) "raw" PNone PNone
                      (PStr "name") PNone PNone (Some "image/png") PNone)
  = (404, [], [])
  /\ _content_image PNone "ir.attachment" (PInt 8) "raw" (PStr "name")
                    PNone PNone PNone PNone (PStr "abc") (PInt 0)
                    (PBool false) (PInt 0) PNone
     = Ok not_found
  /\ _content_image_get_response 404 [] [] "ir.attachment" "raw" PNone
                                 (PStr "abc") (PInt 0) (PBool false)
                                 (PInt 0)
     = Ok not_found
  /\ Response.status_code not_found = 404.
Proof. repeat split. Qed.

(** * The further properties on the sample request *)

#[local] Existing Instance Sample.host.

Example is_a_bot_crawler :
  is_a_bot "Mozilla/5.0 (compatible; Googlebot/2.1; +http://www.google.com/bot.html)"
  = true.
Proof. reflexivity. Qed.

Example is_a_bot_browser :
  is_a_bot "Mozilla/5.0 (X11; Linux x86_64; rv:109.0) Gecko/20100101 Firefox/115.0"
  = false.
Proof. reflexivity. Qed.

Example session_info_without_lang :
  session_info (H0 := env_without_lang) Sample.fresh_session
  = (Raise (KeyError "lang"), Sample.fresh_session).
Proof. reflexivity. Qed.

Lemma handle_debug_idempotent_witness :
  _handle_debug [("debug", "assets,1,")]
                (_handle_debug [("debug", "assets,on,off")]
                               Sample.public_session)
  = _handle_debug [("debug", "assets,on,off")] Sample.public_session.
Proof.
  apply (handle_debug_idempotent _ _ _ "assets,on,off"); reflexivity.
Defined.

Lemma handle_debug_allowed_verbatim_witness :
  Session.debug
    (_handle_debug [("debug", "assets,,tests")] Sample.public_session)
  = "assets,,tests".
Proof.
  apply handle_debug_allowed_verbatim; [reflexivity|].
  repeat constructor; simpl; tauto.
Defined.

Lemma handle_debug_component_count_witness :
  length
    (split ","
       (Session.debug
          (_handle_debug [("debug", "off,no,0")] Sample.public_session)))
  = length (split "," "off,no,0").
Proof.
  apply handle_debug_component_count. reflexivity.
Defined.

Lemma handle_debug_never_longer_witness :
  (String.length
     (Session.debug
        (_handle_debug [("debug", "true,false")] Sample.public_session))
   <= String.length "true,false")%nat.
Proof.
  apply handle_debug_never_longer. reflexivity.
Defined.

Lemma pre_dispatch_debug_witness :
  _pre_dispatch false tt [("debug", "assets")] Sample.public_session
  = (Raise (Exception "Forbidden"), Sample.public_session)
  /\ ((_pre_dispatch true tt [("debug", "assets")] Sample.public_session).1
      = Ok tt
      /\ forall d : string,
           args_get "debug" [("debug", "assets")] = Some d ->
           exists stored : string,
             (_pre_dispatch true tt [("debug", "assets")]
                            Sample.public_session).2
             = Session.set_debug stored Sample.public_session
             /\ Forall (fun mode => In mode ALLOWED_DEBUG_MODES)
                       (split "," stored)).
Proof.
  split.
  - exact (pre_dispatch_debug false tt [("debug", "assets")]
                              Sample.public_session).
  - exact (pre_dispatch_debug true tt [("debug", "assets")]
                              Sample.public_session).
Defined.


Lemma session_info_visitor_witness :
  (session_info Sample.public_session).2 = Sample.public_session
  /\ (forall key : string,
        (session_info Sample.public_session).1 <> Raise (KeyError key))
  /\ forall info : SessionInfo.t,
       (session_info Sample.public_session).1 = Ok info ->
       SessionInfo.user_context info = ∅
       /\ SessionInfo.is_system info = false
       /\ SessionInfo.is_admin info = false
       /\ SessionInfo.company_id info = PNone
       /\ SessionInfo.partner_id info = PNone
       /\ SessionInfo.cache_hashes info !! "translations" = Some PNone.
Proof.
  apply session_info_visitor. reflexivity.
Defined.

Lemma session_info_internal_only_witness :
  exists info : SessionInfo.t,
    (session_info Sample.fresh_session).1 = Ok info
    /\ dom (SessionInfo.cache_hashes info)
       = ({[ "translations"; "load_menus"; "qweb" ]} : gset string)
    /\ is_Some (SessionInfo.user_companies info)
    /\ SessionInfo.show_effect info = Some true
    /\ is_Some (SessionInfo.display_switch_company_menu info).
Proof.
  eexists. split; [reflexivity|].
  exact (session_info_internal_only Sample.fresh_session _ eq_refl).
Defined.

Lemma session_info_exceptions_witness :
  (session_info (H0 := env_without_lang) Sample.fresh_session).1
  = Raise (KeyError "lang").
Proof.
  apply (session_info_exceptions (H0 := env_without_lang)).
  right. right. repeat split.
Defined.

Lemma session_info_allowed_companies_witness :
  exists companies : UserCompanies.t,
    exists info : SessionInfo.t,
      (session_info Sample.fresh_session).1 = Ok info
      /\ SessionInfo.user_companies info = Some companies
      /\ UserCompanies.current_company companies
         = record_id (User.company_id env_user)
      /\ dom (UserCompanies.allowed_companies companies)
         = list_to_set (map Company.id (User.company_ids env_user))
      /\ forall (k : Z) (entry : gmap string pyval),
           UserCompanies.allowed_companies companies !! k = Some entry ->
           entry !! "id" = Some (PInt k)
           /\ dom entry = ({[ "id"; "name"; "sequence" ]} : gset string).
Proof.
  edestruct (session_info_allowed_companies Sample.fresh_session)
    as (companies & Hcompanies); [reflexivity | reflexivity |].
  exists companies. eexists. split; [reflexivity | exact Hcompanies].
Defined.

Lemma get_currencies_sound_witness :
  exists c : Currency.t,
    In c currency_read
    /\ Currency.id c = 2
    /\ currency_entry Sample.USD !! "symbol" = Some (Currency.symbol c)
    /\ currency_entry Sample.USD !! "position" = Some (Currency.position c)
    /\ currency_entry Sample.USD !! "digits"
       = Some (PList [PInt 69; Currency.decimal_places c])
    /\ dom (currency_entry Sample.USD)
       = ({[ "symbol"; "position"; "digits" ]} : gset string).
Proof.
  apply get_currencies_sound. reflexivity.
Defined.

Lemma content_image_raises_only_for_placeholder_witness :
  _content_image_get_response (H0 := env_with_gif_placeholder)
    404 [] [] "res.partner" "image_128" PNone (PInt 0) (PInt 0)
    (PBool false) (PInt 0)
  = Raise ValueError.
Proof.
  apply (content_image_raises_only_for_placeholder
           (H0 := env_with_gif_placeholder)).
  repeat split. intros [Hs|[Hs|[_ Hd]]]; discriminate.
Defined.

Lemma content_image_placeholder_response_witness :
  _content_image_get_response 404 [] [] "ir.attachment" "raw" PNone
                              (PInt 0) (PInt 0) (PBool false) (PInt 0)
  = Ok (_placeholder_image_get_response (encode "placeholder")).
Proof.
  apply (content_image_placeholder_response
           404 "ir.attachment" "raw" PNone (PInt 0) (PInt 0) (PBool false)
           (PInt 0) (encode "placeholder") (encode "placeholder")
           (PInt 0) (PInt 0)).
  - intros [Hs|[Hs|[_ Hd]]]; discriminate.
  - apply (input_placeholder_guessed _ _ _ _ _ _ 0 0); reflexivity.
  - reflexivity.
Defined.

Lemma content_image_raises_only_for_placeholder_file_witness :
  exists (status : Z) (headers : list header),
    binary_content (Env := env_with_gif_placeholder)
      (BinaryContent.mk PNone "res.partner" (PInt 8) "image_128" PNone PNone
                        (PStr "name") PNone PNone (Some "image/png") PNone)
    = (status, headers, [])
    /\ _placeholder
         (if model_in_env (Env := env_with_gif_placeholder) "res.partner"
          then _get_placeholder_filename (Env := env_with_gif_placeholder)
                                         "res.partner" "image_128"
          else None)
       = Raise ValueError.
Proof.
  apply (content_image_raises_only_for_placeholder_file
           (H0 := env_with_gif_placeholder)
           PNone "res.partner" (PInt 8) "image_128" (PStr "name") PNone
           PNone PNone PNone (PInt 0) (PInt 0) (PBool false) (PInt 0) PNone).
  reflexivity.
Defined.

